(** * athena.py: a client for AWS Athena, embedded and verified

    The module has two classes.  [Athena] submits a query and polls the
    service until the results can be read; [AthenaResult] fetches the
    paginated result, reshapes it into a list of rows of strings and
    formats it as delimited text.

    The embedding follows the source line by line:
    - the service's answers ([page], [row], cells) are records and finite
      maps with the keys of the boto3 dictionaries;
    - the remote service is a record of functions of the history of calls
      made so far, so that its answers may change over time;
    - Python lists that are shared and updated in place live in a store
      ([heap]) and are handled through locations;
    - methods are computations in a state-and-exception monad;
    - the unbounded [while True] loop of [Athena.query] takes fuel. *)

From Stdlib Require Import Ascii String.
From stdpp Require Import gmap strings list.


(** ** Service data *)

(** A cell is the dictionary boto3 returns for one value; the only key the
    module reads is ["VarCharValue"], which is absent for a missing value. *)
Abbreviation cell := (gmap string string).

Record row := Row { Data : list cell }.
Record result_set := Result_set { Rows : list row }.
Record page := Page { ResultSet : result_set }.

(** A decoded result: rows of strings. *)
Abbreviation table := (list (list string)).

(** ** Exceptions, remote calls and the service *)

Inductive exn :=
| ClientError (msg : string)
| IndexError
| ValueError.

Inductive call :=
| Start_query_execution (QueryString Database OutputLocation : string)
| Get_query_results (QueryExecutionId : string)
| Paginate (QueryExecutionId : string)
| Put (bucket file_name body : string)
| Sleep (secs : nat).

(** Every operation of the service answers as a function of the calls (and
    sleeps) that came before it: either an exception or a value. *)
Record service := Service {
  start_query_execution : list call -> string -> string -> string -> exn + string;
  get_query_results : list call -> string -> exn + page;
  paginate : list call -> string -> exn + list page;
  put : list call -> string -> string -> string -> exn + unit
}.

(** ** Store of list objects and the monad *)

Abbreviation loc := nat.

Inductive res (S A : Type) :=
| Ok (a : A) (s : S)
| Raise (e : exn) (s : S).
Arguments Ok {S A} a s.
Arguments Raise {S A} e s.

Definition M (S A : Type) : Type := S -> res S A.

Definition ret {S A} (a : A) : M S A := fun s => Ok a s.

Definition bind {S A B} (m : M S A) (k : A -> M S B) : M S B :=
  fun s => match m s with
           | Ok a s' => k a s'
           | Raise e s' => Raise e s'
           end.

Definition gets {S A} (f : S -> A) : M S A := fun s => Ok (f s) s.
Definition modify {S} (f : S -> S) : M S unit := fun s => Ok tt (f s).

Declare Scope py_scope.
Delimit Scope py_scope with py.
Notation "x <- m ;; k" := (bind m (fun x => k))
  (at level 100, m at next level, right associativity) : py_scope.
Notation "m ;;; k" := (bind m (fun _ => k))
  (at level 100, right associativity) : py_scope.
Local Open Scope py_scope.

(** ** Strings *)

Definition tab : string := String "009"%char EmptyString.
Definition newline : string := String "010"%char EmptyString.

(** [sep.join(l)] *)
Fixpoint join (sep : string) (l : list string) : string :=
  match l with
  | [] => ""
  | [x] => x
  | x :: xs => x +:+ sep +:+ join sep xs
  end.

(** [s.endswith(suffix)] *)
Definition endswith (s suffix : string) : bool :=
  (String.length suffix <=? String.length s) &&
  String.eqb
    (substring (String.length s - String.length suffix) (String.length suffix) s)
    suffix.

(** ** Row decoding *)

(** [for x in xs: acc.append(f(x))], starting from [acc]. *)
Definition append_each {A B} (f : A -> B) (xs : list A) (acc : list B) : list B :=
  fold_left (fun acc x => acc ++ [f x]) xs acc.

(** Lines 89-91: one row; [e.get('VarCharValue', u'')]. *)
Definition decode_cell (e : cell) : string := default "" (e !! "VarCharValue").

Definition decode_row (d : list cell) : list string :=
  append_each decode_cell d [].

(** Lines 83-92: from the collected pages to [final_data]. *)
Definition decode_pages (results : list page) : table :=
  let result_sets := map (fun i => Rows (ResultSet i)) results in
  let rows := flat_map (fun x => flat_map (fun y => [y]) x) result_sets in
  let data := map Data rows in
  append_each decode_row data [].

(** ** class AthenaResult *)

Module AthenaResult.

Record t := Build {
  client : service;
  database : string;
  query_id : string;
  s3_path : string;
  results : option loc;
  results_str : option string
}.

(** The state a method runs in: the object itself, the store of row
    lists, and the history of remote calls. *)
Record state := State {
  self : t;
  heap : list table;
  log : list call
}.

Definition with_results (o : t) (r : option loc) : t :=
  Build (client o) (database o) (query_id o) (s3_path o) r (results_str o).

Definition with_results_str (o : t) (r : option string) : t :=
  Build (client o) (database o) (query_id o) (s3_path o) (results o) r.

(** [self.results = r] and [self.results_str = r] *)
Definition set_results (r : option loc) : M state unit :=
  modify (fun s => State (with_results (self s) r) (heap s) (log s)).

Definition set_results_str (r : option string) : M state unit :=
  modify (fun s => State (with_results_str (self s) r) (heap s) (log s)).

(** A new list object. *)
Definition alloc (v : table) : M state loc :=
  fun s => Ok (length (heap s)) (State (self s) (heap s ++ [v]) (log s)).

(** The list behind a reference.  References come from [alloc] only, so
    the lookup never misses on a well-formed state ([wf], [result_wf]). *)
Definition deref (l : loc) : M state table :=
  gets (fun s => default [] (heap s !! l)).

(** [l.pop(0)]: removes the first element in place and returns it. *)
Definition pop0 (l : loc) : M state (list string) :=
  fun s => match default [] (heap s !! l) with
           | [] => Raise IndexError s
           | x :: xs => Ok x (State (self s) (<[l := xs]> (heap s)) (log s))
           end.

(** A remote call: it is recorded, and it returns or raises. *)
Definition remote {A} (c : call) (answer : service -> list call -> exn + A)
  : M state A :=
  fun s =>
    let s' := State (self s) (heap s) (log s ++ [c]) in
    match answer (client (self s)) (log s) with
    | inl e => Raise e s'
    | inr a => Ok a s'
    end.

(** [_result_csv] *)
Definition _result_csv (s3_path query_id : string) : string :=
  let s3_path := if endswith s3_path "/" then s3_path else s3_path +:+ "/" in
  s3_path +:+ query_id +:+ ".csv".

(** [__init__]; creating the paginator makes no remote call. *)
Definition __init__ (client : service) (database query_id s3_path : string) : t :=
  Build client database query_id (_result_csv s3_path query_id) None None.

(** [result], lines 72-97.  The readiness check's answer is not used, and
    neither is [header].  Iterating the paginator is one recorded fetch
    that yields all pages or raises.  [final_data] is built by the loops of
    lines 87-92 and enters the store with their outcome; from then on it is
    one object, named by [self.results] and by the returned reference, and
    [pop(0)] updates it in place. *)
Definition result (header : bool) : M state loc :=
  id <- gets (fun s => query_id (self s)) ;;
  query_results <- remote (Get_query_results id)
                     (fun c h => get_query_results c h id) ;;
  page_iterator <- remote (Paginate id) (fun c h => paginate c h id) ;;
  let results := append_each (fun page => page) page_iterator [] in
  if length results =? 0 then alloc []
  else
    let final_data := decode_pages results in
    l <- alloc final_data ;;
    set_results (Some l) ;;;
    (if 0 <? length final_data then (_ <- pop0 l ;; ret tt) else ret tt) ;;;
    ret l.

(** [to_string], lines 99-106.  [self.result()] takes the default
    [header=True]. *)
Definition to_string (delim : string) : M state string :=
  r <- gets (fun s => results (self s)) ;;
  l <- match r with
       | None => (l <- result true ;; set_results (Some l) ;;; ret l)
       | Some l => ret l
       end ;;
  rows <- deref l ;;
  let lines := map (fun i => join delim i) rows in
  let as_string := join newline lines +:+ newline in
  set_results_str (Some as_string) ;;;
  ret as_string.

(** [to_s3], lines 108-114.  [self.to_string()] takes the default
    [delim='\t']; [obj.put] is the remote call. *)
Definition to_s3 (bucket file_name : string) : M state unit :=
  r <- gets (fun s => results_str (self s)) ;;
  body <- match r with
          | None => (s <- to_string tab ;; set_results_str (Some s) ;;; ret s)
          | Some s => ret s
          end ;;
  remote (Put bucket file_name body)
         (fun c h => put c h bucket file_name body).

(** [_format_results], lines 116-132: not called by [result]. *)
Definition _format_results (query_results : page) (header : bool) : exn + table :=
  let rows := Rows (ResultSet query_results) in
  let matrix :=
    append_each
      (fun r =>
         fold_left (fun datum j =>
                      match j !! "VarCharValue" with
                      | Some val => datum ++ [val]
                      | None => datum
                      end) (Data r) [])
      rows [] in
  if negb header then
    match matrix with
    | [] => inl IndexError
    | _ :: matrix' => inr matrix'
    end
  else inr matrix.

End AthenaResult.

(** ** class Athena *)

Module Athena.

Record t := Build {
  client : service;
  database : string;
  s3_path : string
}.

(** [__init__]; the defaults are [database='default'] and
    [s3_path='s3://cmathenalogs/']. *)
Definition __init__ (client : service) (database s3_path : string) : t :=
  Build client database s3_path.

(** The object has no mutable field: a method's state is the history of
    remote calls and sleeps. *)
Definition remote {A} (c : call) (answer : list call -> exn + A)
  : M (list call) A :=
  fun h => match answer h with
           | inl e => Raise e (h ++ [c])
           | inr a => Ok a (h ++ [c])
           end.

Definition sleep (secs : nat) : M (list call) unit :=
  modify (fun h => h ++ [Sleep secs]).

(** Lines 45-50: the [while True] loop; [except Exception] catches every
    exception of [exn].  [None] means that the loop is still running when
    the fuel is spent. *)
Fixpoint poll (fuel : nat) (self : t) (query_id : string) (h : list call)
  : option (res (list call) unit) :=
  match fuel with
  | 0 => None
  | S fuel' =>
      match remote (Get_query_results query_id)
              (fun h => get_query_results (client self) h query_id) h with
      | Ok _ h' => Some (Ok tt h')
      | Raise _ h' =>
          match sleep 10 h' with
          | Ok _ h'' => poll fuel' self query_id h''
          | Raise e h'' => Some (Raise e h'')
          end
      end
  end.

(** [query], lines 36-51. *)
Definition query (fuel : nat) (self : t) (query : string) (h : list call)
  : option (res (list call) AthenaResult.t) :=
  match remote (Start_query_execution query (database self) (s3_path self))
          (fun h => start_query_execution (client self) h query
                      (database self) (s3_path self)) h with
  | Raise e h' => Some (Raise e h')
  | Ok response h' =>
      let query_id := response in
      match sleep 3 h' with
      | Raise e h'' => Some (Raise e h'')
      | Ok _ h'' =>
          match poll fuel self query_id h'' with
          | None => None
          | Some (Raise e h3) => Some (Raise e h3)
          | Some (Ok _ h3) =>
              Some (Ok (AthenaResult.__init__ (client self) (database self)
                          query_id (s3_path self)) h3)
          end
      end
  end.

(** [repair_table], lines 53-56. *)
Definition repair_table (fuel : nat) (self : t) (table : string) (h : list call)
  : option (res (list call) unit) :=
  let q := "MSCK REPAIR TABLE " +:+ table in
  match query fuel self q h with
  | None => None
  | Some (Raise e h') => Some (Raise e h')
  | Some (Ok _ h') => Some (Ok tt h')
  end.

End Athena.

(** ** Reading delimited text back *)

(** [s.split(sep)] for a non-empty [sep]: [skip] counts the characters of a
    separator found earlier that are still to be passed over. *)
Fixpoint split_go (sep : string) (skip : nat) (s : string) : list string :=
  match s with
  | EmptyString => [""]
  | String c s' =>
      match skip with
      | S k => split_go sep k s'
      | 0 =>
          if String.prefix sep s
          then "" :: split_go sep (String.length sep - 1) s'
          else match split_go sep 0 s' with
               | w :: ws => String c w :: ws
               | [] => [String c ""]
               end
      end
  end.

(** [s.split(sep)]; an empty separator raises [ValueError] ([None]). *)
Definition split (sep s : string) : option (list string) :=
  if String.eqb sep "" then None else Some (split_go sep 0 s).

(** The reading the specification describes: split on newlines, drop the
    last segment, split every line on the delimiter. *)
Definition unformat (delim out : string) : option table :=
  lines ← split newline out;
  mapM (split delim) (removelast lines).

(** The text ends with a newline and not with two. *)
Definition one_trailing_newline (s : string) : bool :=
  endswith s newline && negb (endswith s (newline +:+ newline)).

(** The text [to_string] builds from the rows it finds. *)
Definition format (delim : string) (rows : table) : string :=
  join newline (map (fun i => join delim i) rows) +:+ newline.

(** ** The rows the service reports, and well-formed states *)

(** All rows of all pages, in the order the service returns them. *)
Definition all_rows (pages : list page) : list row :=
  concat (map (fun p => Rows (ResultSet p)) pages).

(** Number of rows on the pages before page [i]. *)
Definition offset (pages : list page) (i : nat) : nat :=
  sum_list (map (fun p => length (Rows (ResultSet p))) (take i pages)).

(** A decoded row [d] is the image of the service's row [r]: same width,
    and every cell is the text value, or the empty string if it is absent. *)
Definition row_decoded (r : row) (d : list string) : Prop :=
  length d = length (Data r) /\
  forall j e, Data r !! j = Some e ->
    d !! j = Some (match e !! "VarCharValue" with Some v => v | None => "" end).

(** The service's answers for query [id] do not depend on the history. *)
Definition stable (c : service) (id : string) : Prop :=
  forall h h',
    get_query_results c h id = get_query_results c h' id /\
    paginate c h id = paginate c h' id.

(** Number of paginated fetches in a history. *)
Definition is_fetch (c : call) : bool :=
  match c with Paginate _ => true | _ => false end.

Definition fetches (h : list call) : nat := length (List.filter is_fetch h).

(** The history before readiness check number [k] (from 0) of the poll
    loop entered with history [h]. *)
Definition retried (h : list call) (id : string) (k : nat) : list call :=
  h ++ concat (replicate k [Get_query_results id; Sleep 10]).

(** Either way a computation ends, the history it leaves. *)
Definition final_log {A} (r : res AthenaResult.state A) : list call :=
  match r with
  | Ok _ s => AthenaResult.log s
  | Raise _ s => AthenaResult.log s
  end.

(** Well-formed states: the reference stored in [self.results], if any,
    points into the store. *)
Definition wf (s : AthenaResult.state) : Prop :=
  forall l, AthenaResult.results (AthenaResult.self s) = Some l ->
            l < length (AthenaResult.heap s).

(** ** Concrete services and states *)

Definition text_cell (v : string) : cell := {[ "VarCharValue" := v ]}.
Definition null_cell : cell := ∅.

Definition text_page (rows : table) : page :=
  Page (Result_set (map (fun vs => Row (map text_cell vs)) rows)).

(** A finished query: the same pages whenever it is asked. *)
Definition finished (pages : list page) : service :=
  Service (fun _ _ _ _ => inr "q-1")
          (fun _ _ => inr (hd (text_page []) pages))
          (fun _ _ => inr pages)
          (fun _ _ _ _ => inr tt).

(** A query whose results can be read from readiness check number [n]. *)
Definition ready_after (n : nat) (pages : list page) : service :=
  Service (fun _ _ _ _ => inr "q-1")
          (fun h _ =>
             if length (List.filter
                          (fun c => match c with
                                    | Get_query_results _ => true
                                    | _ => false
                                    end) h) <? n
             then inl (ClientError "Query has not yet finished")
             else inr (hd (text_page []) pages))
          (fun _ _ => inr pages)
          (fun _ _ _ _ => inr tt).

Definition fresh (c : service) : AthenaResult.state :=
  AthenaResult.State
    (AthenaResult.__init__ c "default" "q-1" "s3://cmathenalogs/") [] [].

Definition two_pages : list page :=
  [text_page [["a"; "b"]; ["1"; "2"]]; text_page [["3"; "4"]]].

(** One page with a header row and two rows that each miss a value. *)
Definition with_null : list page :=
  [Page (Result_set [Row [text_cell "a"; text_cell "b"];
                     Row [text_cell "1"; null_cell];
                     Row [null_cell; text_cell "2"]])].

(** An object whose stored rows are [rows]. *)
Definition holding (rows : table) : AthenaResult.state :=
  AthenaResult.State
    (AthenaResult.with_results
       (AthenaResult.__init__ (finished []) "default" "q-1" "s3://cmathenalogs/")
       (Some 0))
    [rows] [].

(** [c in s] for a character [c]. *)
Fixpoint has_char (c : ascii) (s : string) : bool :=
  match s with
  | EmptyString => false
  | String a s' => Ascii.eqb a c || has_char c s'
  end.

(** Rows that delimited text can carry: every row has a cell, and no cell
    contains the delimiter [d] or a newline. *)
Definition plain (d : ascii) (rows : table) : Prop :=
  Forall (fun r => r <> [] /\
                   Forall (fun x => has_char d x = false /\
                                    has_char "010"%char x = false) r) rows.

(** ** Further measures and services *)

(** Either way a computation ends, the state it leaves. *)
Definition final_state {A} (r : res AthenaResult.state A) : AthenaResult.state :=
  match r with
  | Ok _ s => s
  | Raise _ s => s
  end.

(** Seconds slept in a history. *)
Definition slept (h : list call) : nat :=
  sum_list (map (fun c => match c with Sleep secs => secs | _ => 0 end) h).

Definition is_check (c : call) : bool :=
  match c with Get_query_results _ => true | _ => false end.

(** Number of readiness checks in a history. *)
Definition checks (h : list call) : nat := length (List.filter is_check h).

(** The cell carries a text value. *)
Definition has_value (j : cell) : bool :=
  match j !! "VarCharValue" with Some _ => true | None => false end.

(** The text values present in a row, in order. *)
Definition present_values (d : list cell) : list string :=
  omap (fun j : cell => j !! "VarCharValue") d.

(** A service that rejects every submission. *)
Definition rejecting : service :=
  Service (fun _ _ _ _ => inl (ClientError "Database does not exist"))
          (fun _ _ => inl (ClientError "Unknown query"))
          (fun _ _ => inl (ClientError "Unknown query"))
          (fun _ _ _ _ => inr tt).

(** A query whose results never become readable. *)
Definition unreadable : service :=
  Service (fun _ _ _ _ => inr "q-1")
          (fun _ _ => inl (ClientError "Query has failed"))
          (fun _ _ => inl (ClientError "Query has failed"))
          (fun _ _ _ _ => inr tt).

(** A query whose readiness check answers but whose pagination fails. *)
Definition broken_fetch : service :=
  Service (fun _ _ _ _ => inr "q-1")
          (fun _ _ => inr (text_page []))
          (fun _ _ => inl (ClientError "Throttled"))
          (fun _ _ _ _ => inr tt).

(** A finished query next to a bucket that refuses uploads. *)
Definition broken_put (pages : list page) : service :=
  Service (fun _ _ _ _ => inr "q-1")
          (fun _ _ => inr (hd (text_page []) pages))
          (fun _ _ => inr pages)
          (fun _ _ _ _ => inl (ClientError "Access denied")).

(** * Properties *)

Section Decoding.

Lemma append_each_map {A B} (f : A -> B) (xs : list A) (acc : list B) :
  append_each f xs acc = acc ++ map f xs.
Proof.
  unfold append_each. revert acc.
  induction xs as [|x xs IH]; intros acc; simpl.
  - by rewrite app_nil_r.
  - rewrite IH, <- app_assoc. reflexivity.
Qed.

Lemma decode_row_map (d : list cell) : decode_row d = map decode_cell d.
Proof. unfold decode_row. by rewrite append_each_map. Qed.

Lemma flat_map_singleton {A} (x : list A) : flat_map (fun y => [y]) x = x.
Proof. induction x as [|a x IH]; simpl; congruence. Qed.

Lemma decode_pages_all_rows (pages : list page) :
  decode_pages pages = map (fun r => decode_row (Data r)) (all_rows pages).
Proof.
  unfold decode_pages, all_rows.
  rewrite append_each_map. simpl.
  rewrite map_map. f_equal.
  rewrite flat_map_concat_map. f_equal.
  rewrite <- (map_id (map _ pages)) at 2.
  apply map_ext. intros x. apply flat_map_singleton.
Qed.

Lemma row_decoded_decode_row (r : row) : row_decoded r (decode_row (Data r)).
Proof.
  unfold row_decoded. rewrite decode_row_map. split.
  - by rewrite length_map.
  - intros j e He. rewrite list_lookup_fmap, He. simpl.
    unfold decode_cell. by destruct (e !! "VarCharValue").
Qed.

End Decoding.

Section Result.

Import AthenaResult.

Lemma alloc_lookup (h : list table) (v : table) : (h ++ [v]) !! length h = Some v.
Proof. by rewrite list_lookup_middle. Qed.

Lemma alloc_insert (h : list table) (v w : table) :
  <[length h := w]> (h ++ [v]) = h ++ [w].
Proof.
  rewrite insert_app_r_alt by lia.
  by rewrite Nat.sub_diag.
Qed.

(** What one call of [result] does when the service answers. *)
Lemma result_run (header : bool) (s : state) (qr : page) (pages : list page) :
  get_query_results (client (self s)) (log s) (query_id (self s)) = inr qr ->
  paginate (client (self s)) (log s ++ [Get_query_results (query_id (self s))])
    (query_id (self s)) = inr pages ->
  result header s =
    Ok (length (heap s))
       (State
          (match pages with
           | [] => self s
           | _ => with_results (self s) (Some (length (heap s)))
           end)
          (heap s ++ [tail (decode_pages pages)])
          (log s ++ [Get_query_results (query_id (self s));
                     Paginate (query_id (self s))])).
Proof.
  intros Hget Hpag.
  unfold result, bind, gets, remote. simpl.
  rewrite Hget. simpl. rewrite Hpag. simpl.
  rewrite append_each_map, map_id. simpl.
  rewrite <- app_assoc. simpl.
  destruct pages as [|p pages]; [reflexivity|].
  simpl length. simpl Nat.eqb. cbv iota.
  unfold alloc, set_results, modify, pop0, ret. simpl.
  destruct (decode_pages (p :: pages)) as [|d ds]; simpl.
  - reflexivity.
  - rewrite alloc_lookup. simpl. by rewrite alloc_insert.
Qed.

(** [to_string] on an object whose rows are stored makes no remote call. *)
Lemma to_string_stored (delim : string) (s : state) (l : loc) :
  results (self s) = Some l ->
  to_string delim s =
    Ok (format delim (default [] (heap s !! l)))
       (State (with_results_str (self s)
                 (Some (format delim (default [] (heap s !! l)))))
              (heap s) (log s)).
Proof.
  intros Hres.
  unfold to_string, bind, gets. simpl. rewrite Hres.
  reflexivity.
Qed.

(** [result] keeps states well-formed and returns a reference into the
    store, however it ends. *)
Lemma result_wf (header : bool) (s : state) :
  wf s ->
  match result header s with
  | Ok l s' => wf s' /\ l < length (heap s')
  | Raise _ s' => wf s'
  end.
Proof.
  intros Hwf.
  destruct (get_query_results (client (self s)) (log s) (query_id (self s)))
    as [e|qr] eqn:Hget.
  { unfold result, bind, gets, remote. simpl. rewrite Hget. exact Hwf. }
  destruct (paginate (client (self s))
              (log s ++ [Get_query_results (query_id (self s))])
              (query_id (self s))) as [e|pages] eqn:Hpag.
  { unfold result, bind, gets, remote. simpl. rewrite Hget. simpl.
    rewrite Hpag. exact Hwf. }
  rewrite (result_run header s qr pages Hget Hpag).
  unfold wf. simpl. rewrite length_app. simpl. split; [|lia].
  intros l Hl. destruct pages.
  - specialize (Hwf l Hl). lia.
  - simpl in Hl. injection Hl as <-. lia.
Qed.

(** So does [to_string]. *)
Lemma to_string_wf (delim : string) (s : state) :
  wf s ->
  match to_string delim s with
  | Ok _ s' => wf s'
  | Raise _ s' => wf s'
  end.
Proof.
  intros Hwf.
  destruct (results (self s)) as [l|] eqn:Hres.
  - rewrite (to_string_stored delim s l Hres). exact Hwf.
  - pose proof (result_wf true s Hwf) as Hr.
    unfold to_string, bind, gets. simpl. rewrite Hres.
    destruct (result true s) as [l s'|e s']; [|exact Hr].
    destruct Hr as [_ Hl]. simpl.
    intros l' Hl'. simpl in Hl'. injection Hl' as <-. exact Hl.
Qed.

End Result.

Lemma fetches_app (h h' : list call) : fetches (h ++ h') = fetches h + fetches h'.
Proof. unfold fetches. by rewrite List.filter_app, length_app. Qed.

Section Fetching.

Import AthenaResult.

Variables (header : bool) (s : state) (qr : page) (pages : list page).

Let id := query_id (self s).
Let l := length (heap s).

Hypothesis Hget : get_query_results (client (self s)) (log s) id = inr qr.
Hypothesis Hpag :
  paginate (client (self s)) (log s ++ [Get_query_results id]) id = inr pages.

(** [to_string] on an object with no rows stored fetches them. *)
Lemma to_string_fetch (delim : string) :
  results (self s) = None ->
  to_string delim s =
    Ok (format delim (tail (decode_pages pages)))
       (State (with_results_str (with_results (self s) (Some l))
                 (Some (format delim (tail (decode_pages pages)))))
              (heap s ++ [tail (decode_pages pages)])
              (log s ++ [Get_query_results id; Paginate id])).
Proof.
  intros Hnone.
  unfold to_string, bind, gets. simpl. rewrite Hnone.
  rewrite (result_run true s qr pages Hget Hpag).
  unfold set_results, modify, ret, deref, gets. simpl.
  rewrite alloc_lookup. simpl.
  by destruct pages.
Qed.

End Fetching.

(** ** [AthenaResult.result] and [AthenaResult.to_string] *)

(** C6.  When the readiness check succeeds and the paginated fetch yields no
    page, [result] returns an empty list, whatever the header argument. *)
Theorem result_zero_pages
  (header : bool) (s : AthenaResult.state) (qr : page) :
  let id := AthenaResult.query_id (AthenaResult.self s) in
  let c := AthenaResult.client (AthenaResult.self s) in
  get_query_results c (AthenaResult.log s) id = inr qr ->
  paginate c (AthenaResult.log s ++ [Get_query_results id]) id = inr [] ->
  exists l s',
    AthenaResult.result header s = Ok l s' /\
    AthenaResult.heap s' !! l = Some [].
Proof.
  intros id c Hget Hpag.
  eexists _, _. split.
  - exact (result_run header s qr [] Hget Hpag).
  - simpl. apply alloc_lookup.
Qed.

Lemma result_zero_pages_witness :
  (exists l s', AthenaResult.result true (fresh (finished [])) = Ok l s' /\
                AthenaResult.heap s' !! l = Some []) /\
  (exists l s', AthenaResult.result false (fresh (finished [])) = Ok l s' /\
                AthenaResult.heap s' !! l = Some []).
Proof.
  split.
  - apply (result_zero_pages true (fresh (finished [])) (text_page []));
      reflexivity.
  - apply (result_zero_pages false (fresh (finished [])) (text_page []));
      reflexivity.
Defined.

(** C10.  With zero pages [result] returns before it assigns
    [self.results]: the object is unchanged, so a field that was [None] is
    still [None], and a following [to_string] asks the service again (one
    more readiness check and one more paginated fetch) and formats what
    that new fetch returns. *)
Theorem result_zero_pages_not_stored
  (header : bool) (s : AthenaResult.state) (qr qr2 : page)
  (pages2 : list page) (delim : string) :
  let id := AthenaResult.query_id (AthenaResult.self s) in
  let c := AthenaResult.client (AthenaResult.self s) in
  let h1 := AthenaResult.log s ++ [Get_query_results id; Paginate id] in
  AthenaResult.results (AthenaResult.self s) = None ->
  get_query_results c (AthenaResult.log s) id = inr qr ->
  paginate c (AthenaResult.log s ++ [Get_query_results id]) id = inr [] ->
  get_query_results c h1 id = inr qr2 ->
  paginate c (h1 ++ [Get_query_results id]) id = inr pages2 ->
  exists l s1 s2,
    AthenaResult.result header s = Ok l s1 /\
    AthenaResult.self s1 = AthenaResult.self s /\
    AthenaResult.results (AthenaResult.self s1) = None /\
    AthenaResult.log s1 = h1 /\
    AthenaResult.to_string delim s1 =
      Ok (format delim (tail (decode_pages pages2))) s2 /\
    AthenaResult.log s2 = h1 ++ [Get_query_results id; Paginate id] /\
    fetches (AthenaResult.log s2) = fetches (AthenaResult.log s1) + 1.
Proof.
  intros id c h1 Hnone Hget Hpag Hget2 Hpag2.
  eexists _, _, _. split; [exact (result_run header s qr [] Hget Hpag)|].
  simpl. repeat split; try assumption.
  - rewrite (to_string_fetch _ qr2 pages2); [reflexivity|..]; assumption.
  - reflexivity.
  - subst h1. simpl. by rewrite !fetches_app.
Qed.

Lemma result_zero_pages_not_stored_witness :
  exists l s1 s2,
    AthenaResult.result true (fresh (finished [])) = Ok l s1 /\
    AthenaResult.self s1 = AthenaResult.self (fresh (finished [])) /\
    AthenaResult.results (AthenaResult.self s1) = None /\
    AthenaResult.log s1 = [Get_query_results "q-1"; Paginate "q-1"] /\
    AthenaResult.to_string tab s1 = Ok newline s2 /\
    AthenaResult.log s2 =
      [Get_query_results "q-1"; Paginate "q-1";
       Get_query_results "q-1"; Paginate "q-1"] /\
    fetches (AthenaResult.log s2) = fetches (AthenaResult.log s1) + 1.
Proof.
  apply (result_zero_pages_not_stored true (fresh (finished []))
           (text_page []) (text_page []) [] tab); reflexivity.
Defined.

(** C9.  When [result] decodes at least one row, the location it returns is
    the one stored in [self.results], and the list found there is the
    decoded sequence with its first row removed; this holds for both
    values of [header].  [to_string] then formats these rows without a
    remote call, and [to_s3] (with no string stored yet) uploads that
    text: the first decoded row is in neither. *)
Theorem result_stores_returned_list
  (header : bool) (s : AthenaResult.state) (qr : page) (pages : list page)
  (first : list string) (rest : table) :
  let id := AthenaResult.query_id (AthenaResult.self s) in
  let c := AthenaResult.client (AthenaResult.self s) in
  get_query_results c (AthenaResult.log s) id = inr qr ->
  paginate c (AthenaResult.log s ++ [Get_query_results id]) id = inr pages ->
  decode_pages pages = first :: rest ->
  exists l s1,
    AthenaResult.result header s = Ok l s1 /\
    AthenaResult.results (AthenaResult.self s1) = Some l /\
    AthenaResult.heap s1 !! l = Some rest /\
    (forall delim, exists s2,
        AthenaResult.to_string delim s1 = Ok (format delim rest) s2 /\
        AthenaResult.log s2 = AthenaResult.log s1) /\
    (AthenaResult.results_str (AthenaResult.self s) = None ->
     forall bucket file_name,
       final_log (AthenaResult.to_s3 bucket file_name s1) =
       AthenaResult.log s1 ++ [Put bucket file_name (format tab rest)]).
Proof.
  intros id c Hget Hpag Hdec.
  assert (Hne : pages <> []) by (intros ->; discriminate Hdec).
  eexists _, _. split; [exact (result_run header s qr pages Hget Hpag)|].
  rewrite Hdec. simpl tail.
  destruct pages as [|p ps]; [done|]. cbv iota.
  set (s1 := AthenaResult.State _ _ _).
  assert (Hres : AthenaResult.results (AthenaResult.self s1) =
                 Some (length (AthenaResult.heap s))) by reflexivity.
  assert (Hrows : AthenaResult.heap s1 !! length (AthenaResult.heap s) = Some rest)
    by apply alloc_lookup.
  split; [exact Hres|]. split; [exact Hrows|]. split.
  - intros delim. eexists. split.
    + rewrite (to_string_stored delim s1 _ Hres), Hrows. reflexivity.
    + reflexivity.
  - intros Hstr bucket file_name.
    unfold AthenaResult.to_s3, bind, gets at 1.
    replace (AthenaResult.results_str (AthenaResult.self s1)) with (@None string)
      by (symmetry; exact Hstr).
    rewrite (to_string_stored tab s1 _ Hres), Hrows. simpl.
    unfold AthenaResult.remote. simpl.
    by destruct (put _ _ _ _ _).
Qed.

Lemma result_stores_returned_list_witness :
  exists l s1,
    AthenaResult.result true (fresh (finished two_pages)) = Ok l s1 /\
    AthenaResult.results (AthenaResult.self s1) = Some l /\
    AthenaResult.heap s1 !! l = Some [["1"; "2"]; ["3"; "4"]] /\
    (forall delim, exists s2,
        AthenaResult.to_string delim s1 =
          Ok (format delim [["1"; "2"]; ["3"; "4"]]) s2 /\
        AthenaResult.log s2 = AthenaResult.log s1) /\
    (AthenaResult.results_str (AthenaResult.self (fresh (finished two_pages)))
       = None ->
     forall bucket file_name,
       final_log (AthenaResult.to_s3 bucket file_name s1) =
       AthenaResult.log s1 ++
         [Put bucket file_name (format tab [["1"; "2"]; ["3"; "4"]])]).
Proof.
  apply (result_stores_returned_list true (fresh (finished two_pages))
           (text_page [["a"; "b"]; ["1"; "2"]]) two_pages ["a"; "b"]);
    reflexivity.
Defined.

(** C1 (what the code does).  [result] never looks at [header]: whenever at
    least one row is decoded, both [result(header=True)] and
    [result(header=False)] return the decoded sequence without its first
    row, so the two results have the same length, one less than the
    decoded sequence. *)
Theorem result_ignores_header
  (s : AthenaResult.state) (qr : page) (pages : list page)
  (first : list string) (rest : table) :
  let id := AthenaResult.query_id (AthenaResult.self s) in
  let c := AthenaResult.client (AthenaResult.self s) in
  get_query_results c (AthenaResult.log s) id = inr qr ->
  paginate c (AthenaResult.log s ++ [Get_query_results id]) id = inr pages ->
  decode_pages pages = first :: rest ->
  forall header, exists l s',
    AthenaResult.result header s = Ok l s' /\
    AthenaResult.heap s' !! l = Some rest /\
    length rest + 1 = length (decode_pages pages).
Proof.
  intros id c Hget Hpag Hdec header.
  eexists _, _. split; [exact (result_run header s qr pages Hget Hpag)|].
  simpl. rewrite Hdec. simpl. split; [apply alloc_lookup | lia].
Qed.

Lemma result_ignores_header_witness :
  (exists l s',
      AthenaResult.result true (fresh (finished [text_page [["a"]; ["1"]]]))
        = Ok l s' /\
      AthenaResult.heap s' !! l = Some [["1"]] /\
      length [["1"]] + 1 = length (decode_pages [text_page [["a"]; ["1"]]])) /\
  (exists l s',
      AthenaResult.result false (fresh (finished [text_page [["a"]; ["1"]]]))
        = Ok l s' /\
      AthenaResult.heap s' !! l = Some [["1"]] /\
      length [["1"]] + 1 = length (decode_pages [text_page [["a"]; ["1"]]])).
Proof.
  split;
    apply (result_ignores_header (fresh (finished [text_page [["a"]; ["1"]]]))
             (text_page [["a"]; ["1"]]) [text_page [["a"]; ["1"]]] ["a"]);
    reflexivity.
Defined.

(** C7.  Two pages, [[a,b],[1,2]] and [[3,4]]: [result(header=False)]
    returns [[1,2],[3,4]], and [to_string()] after it returns
    "1\t2\n3\t4\n". *)
Theorem two_pages_example :
  exists l s1 s2,
    AthenaResult.result false (fresh (finished two_pages)) = Ok l s1 /\
    AthenaResult.heap s1 !! l = Some [["1"; "2"]; ["3"; "4"]] /\
    AthenaResult.to_string tab s1 =
      Ok ("1" +:+ tab +:+ "2" +:+ newline +:+ "3" +:+ tab +:+ "4" +:+ newline) s2.
Proof.
  eexists _, _, _. split; [|split].
  - vm_compute. reflexivity.
  - reflexivity.
  - vm_compute. reflexivity.
Qed.

(** ** Decoding: widths and order *)

Section Order.

Lemma decode_pages_cons (p : page) (ps : list page) :
  decode_pages (p :: ps) =
  map (fun r => decode_row (Data r)) (Rows (ResultSet p)) ++ decode_pages ps.
Proof.
  rewrite !decode_pages_all_rows. unfold all_rows. simpl.
  by rewrite map_app.
Qed.

Lemma decode_pages_concat (pages : list page) :
  decode_pages pages =
  concat (map (fun p => map (fun r => decode_row (Data r)) (Rows (ResultSet p)))
              pages).
Proof.
  induction pages as [|p ps IH]; [reflexivity|].
  rewrite decode_pages_cons, IH. reflexivity.
Qed.

Lemma decode_pages_lookup (pages : list page) :
  forall i j p r,
    pages !! i = Some p ->
    Rows (ResultSet p) !! j = Some r ->
    decode_pages pages !! (offset pages i + j) = Some (decode_row (Data r)).
Proof.
  induction pages as [|q ps IH]; intros i j p r Hp Hr; [done|].
  rewrite decode_pages_cons.
  destruct i as [|i]; simpl in Hp.
  - injection Hp as ->. unfold offset. simpl.
    rewrite lookup_app_l.
    + by rewrite list_lookup_fmap, Hr.
    + rewrite length_map. by eapply lookup_lt_Some.
  - unfold offset. simpl. fold (offset ps i).
    rewrite lookup_app_r; rewrite length_map; [|lia].
    replace (length (Rows (ResultSet q)) + offset ps i + j
             - length (Rows (ResultSet q))) with (offset ps i + j) by lia.
    by eapply IH.
Qed.

Lemma all_rows_decoded (rs : list row) :
  Forall2 row_decoded rs (map (fun r => decode_row (Data r)) rs).
Proof.
  induction rs as [|r rs IH]; constructor; [|exact IH].
  apply row_decoded_decode_row.
Qed.

End Order.

(** C5.  In the decoding [result] performs, every row of the service maps to
    a row of the same width in which a cell is its text value, or the empty
    string when the value is missing (cells are strings, so none is null);
    this holds for the whole decoded sequence and for the rows returned.
    Rows reported with the same cell count are therefore returned with the
    same width. *)
Theorem missing_cells_decode_to_empty
  (header : bool) (s : AthenaResult.state) (qr : page) (pages : list page) :
  let id := AthenaResult.query_id (AthenaResult.self s) in
  let c := AthenaResult.client (AthenaResult.self s) in
  get_query_results c (AthenaResult.log s) id = inr qr ->
  paginate c (AthenaResult.log s ++ [Get_query_results id]) id = inr pages ->
  Forall2 row_decoded (all_rows pages) (decode_pages pages) /\
  exists l s' (t : table),
    AthenaResult.result header s = Ok l s' /\
    AthenaResult.heap s' !! l = Some t /\
    Forall2 row_decoded (tail (all_rows pages)) t /\
    (forall i j ri rj di dj,
        tail (all_rows pages) !! i = Some ri ->
        tail (all_rows pages) !! j = Some rj ->
        t !! i = Some di -> t !! j = Some dj ->
        length (Data ri) = length (Data rj) ->
        length di = length dj).
Proof.
  intros id c Hget Hpag.
  assert (Hall : Forall2 row_decoded (all_rows pages) (decode_pages pages)).
  { rewrite decode_pages_all_rows. apply all_rows_decoded. }
  assert (Htl : Forall2 row_decoded (tail (all_rows pages))
                        (tail (decode_pages pages))).
  { destruct Hall; simpl; [constructor | assumption]. }
  split; [exact Hall|].
  eexists _, _, _. split; [exact (result_run header s qr pages Hget Hpag)|].
  split; [apply alloc_lookup|]. split; [exact Htl|].
  intros i j ri rj di dj Hri Hrj Hdi Hdj Hlen.
  destruct (Forall2_lookup_lr _ _ _ _ _ _ Htl Hri Hdi) as [Hi _].
  destruct (Forall2_lookup_lr _ _ _ _ _ _ Htl Hrj Hdj) as [Hj _].
  congruence.
Qed.

(** C8.  The decoded sequence is the concatenation of the pages' decoded
    rows, page after page and row after row inside a page: row [j] of page
    [i] sits at position [offset pages i + j].  What [result] returns is
    this sequence from its second row on, in the same order. *)
Theorem rows_in_service_order
  (header : bool) (s : AthenaResult.state) (qr : page) (pages : list page) :
  let id := AthenaResult.query_id (AthenaResult.self s) in
  let c := AthenaResult.client (AthenaResult.self s) in
  get_query_results c (AthenaResult.log s) id = inr qr ->
  paginate c (AthenaResult.log s ++ [Get_query_results id]) id = inr pages ->
  decode_pages pages =
    concat (map (fun p => map (fun r => decode_row (Data r)) (Rows (ResultSet p)))
                pages) /\
  (forall i j p r,
      pages !! i = Some p ->
      Rows (ResultSet p) !! j = Some r ->
      decode_pages pages !! (offset pages i + j) = Some (decode_row (Data r))) /\
  exists l s' (t : table),
    AthenaResult.result header s = Ok l s' /\
    AthenaResult.heap s' !! l = Some t /\
    forall k, t !! k = decode_pages pages !! S k.
Proof.
  intros id c Hget Hpag.
  split; [apply decode_pages_concat|].
  split; [apply decode_pages_lookup|].
  eexists _, _, _. split; [exact (result_run header s qr pages Hget Hpag)|].
  split; [apply alloc_lookup|].
  intros k. by destruct (decode_pages pages).
Qed.

Lemma missing_cells_decode_to_empty_witness :
  Forall2 row_decoded (all_rows with_null) (decode_pages with_null) /\
  exists l s' (t : table),
    AthenaResult.result true (fresh (finished with_null)) = Ok l s' /\
    AthenaResult.heap s' !! l = Some t /\
    Forall2 row_decoded (tail (all_rows with_null)) t /\
    (forall i j ri rj di dj,
        tail (all_rows with_null) !! i = Some ri ->
        tail (all_rows with_null) !! j = Some rj ->
        t !! i = Some di -> t !! j = Some dj ->
        length (Data ri) = length (Data rj) ->
        length di = length dj).
Proof.
  apply (missing_cells_decode_to_empty true (fresh (finished with_null))
           (hd (text_page []) with_null) with_null); reflexivity.
Defined.

Lemma rows_in_service_order_witness :
  decode_pages two_pages =
    concat (map (fun p => map (fun r => decode_row (Data r)) (Rows (ResultSet p)))
                two_pages) /\
  (forall i j p r,
      two_pages !! i = Some p ->
      Rows (ResultSet p) !! j = Some r ->
      decode_pages two_pages !! (offset two_pages i + j)
        = Some (decode_row (Data r))) /\
  exists l s' (t : table),
    AthenaResult.result true (fresh (finished two_pages)) = Ok l s' /\
    AthenaResult.heap s' !! l = Some t /\
    forall k, t !! k = decode_pages two_pages !! S k.
Proof.
  apply (rows_in_service_order true (fresh (finished two_pages))
           (hd (text_page []) two_pages) two_pages); reflexivity.
Defined.

(** The decoded rows keep an empty string where the value is missing... *)
Example decode_with_null :
  decode_pages with_null = [["a"; "b"]; ["1"; ""]; [""; "2"]].
Proof. reflexivity. Qed.

(** ... whereas [_format_results], which [result] does not call, skips the
    cell. *)
Example format_results_with_null :
  AthenaResult._format_results (hd (text_page []) with_null) true
  = inr [["a"; "b"]; ["1"]; ["2"]].
Proof. reflexivity. Qed.

(** [_format_results] keeps the first row unless [header] is [False]. *)
Example format_results_header :
  AthenaResult._format_results (text_page [["a"]; ["1"]]) true
    = inr [["a"]; ["1"]] /\
  AthenaResult._format_results (text_page [["a"]; ["1"]]) false
    = inr [["1"]].
Proof. split; reflexivity. Qed.

(** ** Memoization *)

(** C2 (as stated, refuted).  Two calls of [result] on a finished query:
    memoization would allow one paginated fetch and no remote call in the
    second call; the code fetches twice. *)
Lemma result_memoized_fails :
  ~ (forall (s s1 s2 : AthenaResult.state) (h1 h2 : bool) (l1 l2 : loc),
        stable (AthenaResult.client (AthenaResult.self s))
               (AthenaResult.query_id (AthenaResult.self s)) ->
        AthenaResult.result h1 s = Ok l1 s1 ->
        AthenaResult.result h2 s1 = Ok l2 s2 ->
        fetches (AthenaResult.log s2) <= fetches (AthenaResult.log s) + 1 /\
        AthenaResult.log s2 = AthenaResult.log s1 /\
        AthenaResult.heap s2 !! l2 = AthenaResult.heap s1 !! l1).
Proof.
  intros H.
  destruct (AthenaResult.result true (fresh (finished two_pages)))
    as [l1 s1|] eqn:E1; [|discriminate E1].
  destruct (AthenaResult.result true s1) as [l2 s2|] eqn:E2.
  - assert (Hst : stable (finished two_pages) "q-1") by (intros ? ?; done).
    destruct (H (fresh (finished two_pages)) s1 s2 true true l1 l2 Hst E1 E2)
      as (Hle & _).
    injection E1 as <- <-. injection E2 as <- <-.
    vm_compute in Hle. lia.
  - injection E1 as <- <-. discriminate E2.
Qed.

(** C2 (amended).  [result] does not look at [self.results]: with a service
    whose answers do not change, each of two calls makes its own readiness
    check and paginated fetch (two fetches in all), and the two calls
    return equal rows in two distinct lists.  The stored rows are reused by
    [to_string], which makes no remote call once [self.results] is set. *)
Theorem result_fetches_on_every_call
  (h1 h2 : bool) (s : AthenaResult.state) (qr : page) (pages : list page) :
  let id := AthenaResult.query_id (AthenaResult.self s) in
  let c := AthenaResult.client (AthenaResult.self s) in
  stable c id ->
  get_query_results c (AthenaResult.log s) id = inr qr ->
  paginate c (AthenaResult.log s) id = inr pages ->
  exists l1 s1 l2 s2,
    AthenaResult.result h1 s = Ok l1 s1 /\
    AthenaResult.result h2 s1 = Ok l2 s2 /\
    AthenaResult.log s1 =
      AthenaResult.log s ++ [Get_query_results id; Paginate id] /\
    AthenaResult.log s2 =
      AthenaResult.log s1 ++ [Get_query_results id; Paginate id] /\
    fetches (AthenaResult.log s2) = fetches (AthenaResult.log s) + 2 /\
    l1 <> l2 /\
    AthenaResult.heap s2 !! l1 = Some (tail (decode_pages pages)) /\
    AthenaResult.heap s2 !! l2 = Some (tail (decode_pages pages)) /\
    (pages <> [] ->
     forall delim, exists s3,
       AthenaResult.to_string delim s2
         = Ok (format delim (tail (decode_pages pages))) s3 /\
       AthenaResult.log s3 = AthenaResult.log s2).
Proof.
  intros id c Hst Hget Hpag.
  assert (Hpag1 : paginate c (AthenaResult.log s ++ [Get_query_results id]) id
                  = inr pages).
  { rewrite <- Hpag. apply Hst. }
  pose proof (result_run h1 s qr pages Hget Hpag1) as E1.
  set (s1 := AthenaResult.State _ _ _) in E1.
  assert (Hself : AthenaResult.query_id (AthenaResult.self s1) = id
                  /\ AthenaResult.client (AthenaResult.self s1) = c).
  { subst s1. simpl. by destruct pages. }
  destruct Hself as [Hid Hc].
  assert (Hget2 : get_query_results (AthenaResult.client (AthenaResult.self s1))
                    (AthenaResult.log s1)
                    (AthenaResult.query_id (AthenaResult.self s1)) = inr qr).
  { rewrite Hid, Hc, <- Hget. apply Hst. }
  assert (Hpag2 : paginate (AthenaResult.client (AthenaResult.self s1))
                    (AthenaResult.log s1 ++
                       [Get_query_results
                          (AthenaResult.query_id (AthenaResult.self s1))])
                    (AthenaResult.query_id (AthenaResult.self s1)) = inr pages).
  { rewrite Hid, Hc, <- Hpag. apply Hst. }
  pose proof (result_run h2 s1 qr pages Hget2 Hpag2) as E2.
  rewrite Hid in E2.
  set (s2 := AthenaResult.State _ _ _) in E2.
  exists (length (AthenaResult.heap s)), s1,
         (length (AthenaResult.heap s1)), s2.
  split; [exact E1|]. split; [exact E2|].
  split; [reflexivity|]. split; [reflexivity|].
  split; [subst s2 s1; simpl; rewrite !fetches_app; unfold fetches; simpl; lia|].
  split; [subst s1; simpl; rewrite length_app; simpl; lia|].
  split.
  { subst s2. simpl. rewrite lookup_app_l.
    - subst s1. simpl. apply alloc_lookup.
    - subst s1. simpl. rewrite length_app. simpl. lia. }
  split; [subst s2; simpl; apply alloc_lookup|].
  intros Hne delim.
  assert (Hres : AthenaResult.results (AthenaResult.self s2)
                 = Some (length (AthenaResult.heap s1))).
  { subst s2. simpl. by destruct pages. }
  eexists. split.
  - rewrite (to_string_stored delim s2 _ Hres).
    subst s2. simpl. rewrite alloc_lookup. reflexivity.
  - reflexivity.
Qed.

Lemma result_fetches_on_every_call_witness :
  exists l1 s1 l2 s2,
    AthenaResult.result true (fresh (finished two_pages)) = Ok l1 s1 /\
    AthenaResult.result true s1 = Ok l2 s2 /\
    AthenaResult.log s1 = [Get_query_results "q-1"; Paginate "q-1"] /\
    AthenaResult.log s2 =
      AthenaResult.log s1 ++ [Get_query_results "q-1"; Paginate "q-1"] /\
    fetches (AthenaResult.log s2) = 2 /\
    l1 <> l2 /\
    AthenaResult.heap s2 !! l1 = Some [["1"; "2"]; ["3"; "4"]] /\
    AthenaResult.heap s2 !! l2 = Some [["1"; "2"]; ["3"; "4"]] /\
    (two_pages <> [] ->
     forall delim, exists s3,
       AthenaResult.to_string delim s2
         = Ok (format delim [["1"; "2"]; ["3"; "4"]]) s3 /\
       AthenaResult.log s3 = AthenaResult.log s2).
Proof.
  apply (result_fetches_on_every_call true true (fresh (finished two_pages))
           (hd (text_page []) two_pages) two_pages);
    [intros ? ?; split; reflexivity | reflexivity | reflexivity].
Defined.

(** ** The poll loop of [Athena.query] *)

Section Polling.

Variables (self : Athena.t) (id : string).

Let get (h : list call) := get_query_results (Athena.client self) h id.

Lemma retried_0 (h : list call) : retried h id 0 = h.
Proof. unfold retried. simpl. apply app_nil_r. Qed.

Lemma retried_S (h : list call) (k : nat) :
  retried (h ++ [Get_query_results id; Sleep 10]) id k = retried h id (S k).
Proof. unfold retried. simpl. by rewrite <- app_assoc. Qed.

(** One turn of the loop after a check that raised. *)
Lemma poll_raise (fuel : nat) (h : list call) (e : exn) :
  get h = inl e ->
  Athena.poll (S fuel) self id h =
  Athena.poll fuel self id (h ++ [Get_query_results id; Sleep 10]).
Proof.
  intros He. simpl. unfold Athena.remote. fold (get h). rewrite He.
  simpl. by rewrite <- app_assoc.
Qed.

Lemma poll_return (fuel : nat) (h : list call) (p : page) :
  get h = inr p ->
  Athena.poll (S fuel) self id h = Some (Ok tt (h ++ [Get_query_results id])).
Proof.
  intros Hp. simpl. unfold Athena.remote. fold (get h). by rewrite Hp.
Qed.

Lemma poll_success (n : nat) :
  forall (fuel : nat) (h : list call) (p : page),
    n < fuel ->
    (forall k, k < n -> exists e, get (retried h id k) = inl e) ->
    get (retried h id n) = inr p ->
    Athena.poll fuel self id h =
    Some (Ok tt (retried h id n ++ [Get_query_results id])).
Proof.
  induction n as [|n IH]; intros fuel h p Hfuel Hfail Hok;
    (destruct fuel as [|fuel]; [lia|]).
  - rewrite retried_0 in *. by eapply poll_return.
  - destruct (Hfail 0) as [e He]; [lia|]. rewrite retried_0 in He.
    rewrite (poll_raise _ _ _ He), <- retried_S.
    apply (IH fuel _ p); [lia| |by rewrite retried_S].
    intros k Hk. rewrite retried_S. apply Hfail. lia.
Qed.

Lemma poll_never (fuel : nat) :
  forall h : list call,
    (forall k, exists e, get (retried h id k) = inl e) ->
    Athena.poll fuel self id h = None.
Proof.
  induction fuel as [|fuel IH]; intros h Hfail; [reflexivity|].
  destruct (Hfail 0) as [e He]. rewrite retried_0 in He.
  rewrite (poll_raise _ _ _ He). apply IH.
  intros k. rewrite retried_S. apply Hfail.
Qed.

Lemma poll_inv (fuel : nat) :
  forall (h : list call) (r : res (list call) unit),
    Athena.poll fuel self id h = Some r ->
    exists n p,
      n < fuel /\
      get (retried h id n) = inr p /\
      (forall k, k < n -> exists e, get (retried h id k) = inl e) /\
      r = Ok tt (retried h id n ++ [Get_query_results id]).
Proof.
  induction fuel as [|fuel IH]; intros h r Hr; [discriminate Hr|].
  destruct (get h) as [e|p] eqn:Hg.
  - rewrite (poll_raise _ _ _ Hg) in Hr.
    destruct (IH _ _ Hr) as (n & p & Hn & Hok & Hfail & ->).
    exists (S n), p. rewrite <- !retried_S.
    split; [lia|]. split; [exact Hok|]. split; [|reflexivity].
    intros [|k] Hk.
    + exists e. by rewrite retried_0.
    + rewrite <- retried_S. apply Hfail. lia.
  - rewrite (poll_return _ _ _ Hg) in Hr. injection Hr as <-.
    exists 0, p. rewrite retried_0.
    split; [lia|]. split; [exact Hg|]. split; [|reflexivity].
    intros k Hk. lia.
Qed.

End Polling.

(** C4.  After the submission is accepted, [query] sleeps 3 seconds and
    then checks for results; a check that raises (any exception) is
    followed by a sleep of 10 seconds and another check.
    - If the checks raise [n] times and then succeed, [query] returns the
      [AthenaResult] after exactly these [n+1] checks, whatever the
      successful answer contains.
    - If every check raises, [query] is still looping after any number of
      turns: there is no retry limit.
    - Whenever [query] ends, it ends normally and right after the first
      check that succeeded: no exception leaves the loop. *)
Theorem poll_retries_until_success
  (self : Athena.t) (q : string) (h0 : list call) (id : string) :
  let c := Athena.client self in
  let h := h0 ++ [Start_query_execution q (Athena.database self)
                    (Athena.s3_path self); Sleep 3] in
  let r := AthenaResult.__init__ c (Athena.database self) id
             (Athena.s3_path self) in
  start_query_execution c h0 q (Athena.database self) (Athena.s3_path self)
    = inr id ->
  (forall n p,
      (forall k, k < n ->
         exists e, get_query_results c (retried h id k) id = inl e) ->
      get_query_results c (retried h id n) id = inr p ->
      forall fuel, n < fuel ->
        Athena.query fuel self q h0 =
        Some (Ok r (retried h id n ++ [Get_query_results id]))) /\
  ((forall k, exists e, get_query_results c (retried h id k) id = inl e) ->
   forall fuel, Athena.query fuel self q h0 = None) /\
  (forall fuel out,
      Athena.query fuel self q h0 = Some out ->
      exists n p,
        n < fuel /\
        get_query_results c (retried h id n) id = inr p /\
        (forall k, k < n ->
           exists e, get_query_results c (retried h id k) id = inl e) /\
        out = Ok r (retried h id n ++ [Get_query_results id])).
Proof.
  intros c h r Hstart.
  assert (Hq : forall fuel,
             Athena.query fuel self q h0 =
             match Athena.poll fuel self id h with
             | None => None
             | Some (Raise e h3) => Some (Raise e h3)
             | Some (Ok _ h3) => Some (Ok r h3)
             end).
  { intros fuel. unfold Athena.query, Athena.remote. fold c. rewrite Hstart.
    simpl. subst h. by rewrite <- app_assoc. }
  split; [|split].
  - intros n p Hfail Hok fuel Hfuel.
    by rewrite Hq, (poll_success self id n fuel h p Hfuel Hfail Hok).
  - intros Hfail fuel.
    by rewrite Hq, (poll_never self id fuel h Hfail).
  - intros fuel out Hout. rewrite Hq in Hout.
    destruct (Athena.poll fuel self id h) as [r'|] eqn:Hp; [|discriminate Hout].
    destruct (poll_inv self id fuel h r' Hp) as (n & p & Hn & Hok & Hfail & ->).
    injection Hout as <-. by exists n, p.
Qed.

Lemma poll_retries_until_success_witness :
  Athena.query 5
    (Athena.__init__ (ready_after 2 two_pages) "default" "s3://cmathenalogs/")
    "SELECT 1" [] =
  Some (Ok (AthenaResult.__init__ (ready_after 2 two_pages) "default" "q-1"
              "s3://cmathenalogs/")
           [Start_query_execution "SELECT 1" "default" "s3://cmathenalogs/";
            Sleep 3;
            Get_query_results "q-1"; Sleep 10;
            Get_query_results "q-1"; Sleep 10;
            Get_query_results "q-1"]).
Proof.
  destruct (poll_retries_until_success
              (Athena.__init__ (ready_after 2 two_pages) "default"
                 "s3://cmathenalogs/")
              "SELECT 1" [] "q-1" eq_refl) as [Hret _].
  apply (Hret 2 (hd (text_page []) two_pages)).
  - intros [|[|k]] Hk.
    + eexists; reflexivity.
    + eexists; reflexivity.
    + exfalso. do 2 apply Nat.succ_lt_mono in Hk. exact (Nat.nlt_0_r _ Hk).
  - reflexivity.
  - repeat constructor.
Defined.

(** ** Delimited text *)

#[local] Arguments String.append : simpl nomatch.

Section Text.

Lemma str_app_assoc (a b c : string) : (a +:+ b) +:+ c = a +:+ (b +:+ c).
Proof. induction a as [|x a IH]; simpl; congruence. Qed.

Lemma str_length_app (a b : string) :
  String.length (a +:+ b) = String.length a + String.length b.
Proof. induction a as [|x a IH]; simpl; congruence. Qed.

Lemma substring_all (b : string) : substring 0 (String.length b) b = b.
Proof. induction b as [|x b IH]; simpl; congruence. Qed.

Lemma substring_drop (a b : string) :
  substring (String.length a) (String.length b) (a +:+ b) = b.
Proof. induction a as [|x a IH]; simpl; [apply substring_all | exact IH]. Qed.

Lemma endswith_app (a b c : string) :
  String.length b = String.length c ->
  endswith (a +:+ b) c = String.eqb b c.
Proof.
  intros Hlen. unfold endswith.
  rewrite str_length_app, <- Hlen.
  replace (String.length a + String.length b - String.length b)
    with (String.length a) by lia.
  rewrite substring_drop.
  replace (String.length b <=? String.length a + String.length b) with true
    by (symmetry; apply Nat.leb_le; lia).
  reflexivity.
Qed.

Lemma has_char_cons (c a : ascii) (s : string) :
  has_char c (String a s) = false -> a <> c /\ has_char c s = false.
Proof.
  simpl. intros H. apply orb_false_elim in H as [Ha Hs].
  split; [by apply Ascii.eqb_neq | exact Hs].
Qed.

Lemma has_char_app (c : ascii) (a b : string) :
  has_char c (a +:+ b) = has_char c a || has_char c b.
Proof.
  induction a as [|x a IH]; simpl; [reflexivity|].
  by rewrite IH, orb_assoc.
Qed.

Lemma prefix_char (c a : ascii) (s : string) :
  String.prefix (String c "") (String a s) = Ascii.eqb a c.
Proof.
  simpl. destruct (ascii_dec c a) as [->|Hne].
  - rewrite Ascii.eqb_refl. by destruct s.
  - symmetry. apply Ascii.eqb_neq. congruence.
Qed.

Variable c : ascii.

Let sep := String c "".

Lemma split_go_none (s : string) :
  has_char c s = false -> split_go sep 0 s = [s].
Proof.
  induction s as [|a s IH]; intros H; [reflexivity|].
  apply has_char_cons in H as [Ha Hs].
  cbn [split_go]. unfold sep at 1. rewrite prefix_char.
  replace (Ascii.eqb a c) with false by (symmetry; by apply Ascii.eqb_neq).
  by rewrite (IH Hs).
Qed.

Lemma split_go_sep (x rest : string) :
  has_char c x = false ->
  split_go sep 0 (x +:+ String c rest) = x :: split_go sep 0 rest.
Proof.
  induction x as [|a x IH]; intros H.
  - cbn [String.app split_go]. unfold sep at 1. rewrite prefix_char.
    by rewrite Ascii.eqb_refl.
  - apply has_char_cons in H as [Ha Hx].
    cbn [String.app split_go]. unfold sep at 1. rewrite prefix_char.
    replace (Ascii.eqb a c) with false by (symmetry; by apply Ascii.eqb_neq).
    by rewrite (IH Hx).
Qed.

Lemma join_cons2 (x y : string) (ys : list string) :
  join sep (x :: y :: ys) = x +:+ String c (join sep (y :: ys)).
Proof. reflexivity. Qed.

Lemma split_join (cells : list string) :
  cells <> [] ->
  Forall (fun x => has_char c x = false) cells ->
  split_go sep 0 (join sep cells) = cells.
Proof.
  induction cells as [|x [|y ys] IH]; intros Hne Hall; [done| |].
  - apply split_go_none. by inversion Hall.
  - inversion Hall as [|? ? Hx Hrest]; subst.
    rewrite join_cons2, split_go_sep by exact Hx.
    by rewrite IH.
Qed.

Lemma split_lines (lines : list string) :
  lines <> [] ->
  Forall (fun x => has_char c x = false) lines ->
  split_go sep 0 (join sep lines +:+ sep) = lines ++ [""].
Proof.
  induction lines as [|x [|y ys] IH]; intros Hne Hall; [done| |].
  - inversion Hall; subst. simpl join. unfold sep at 2.
    by rewrite split_go_sep.
  - inversion Hall as [|? ? Hx Hrest]; subst.
    rewrite join_cons2, str_app_assoc.
    cbn [String.app]. rewrite split_go_sep by exact Hx.
    by rewrite IH.
Qed.

Lemma has_char_join (d : ascii) (cells : list string) :
  d <> c ->
  Forall (fun x => has_char d x = false) cells ->
  has_char d (join sep cells) = false.
Proof.
  intros Hd.
  induction cells as [|x [|y ys] IH]; intros Hall; [reflexivity| |].
  - by inversion Hall.
  - inversion Hall as [|? ? Hx Hrest]; subst.
    rewrite join_cons2, has_char_app, Hx. cbn [has_char orb].
    rewrite (IH Hrest).
    replace (Ascii.eqb c d) with false
      by (symmetry; apply Ascii.eqb_neq; congruence).
    reflexivity.
Qed.

Lemma join_last (ls : list string) (t : string) :
  exists pre, join sep (ls ++ [t]) = pre +:+ t.
Proof.
  induction ls as [|x ls [pre IH]].
  - by exists "".
  - exists (x +:+ sep +:+ pre).
    change ((x :: ls) ++ [t]) with (x :: (ls ++ [t])).
    destruct (ls ++ [t]) as [|y ys] eqn:E; [by destruct ls|].
    rewrite join_cons2, IH. unfold sep.
    by rewrite !str_app_assoc.
Qed.

Lemma join_not_empty (r : list string) :
  r <> [] -> r <> [""] -> join sep r <> "".
Proof.
  destruct r as [|x [|y ys]]; intros Hne Hne1; [done| |].
  - simpl. congruence.
  - rewrite join_cons2. by destruct x.
Qed.

End Text.

Lemma last_char (c : ascii) (t : string) :
  t <> "" -> has_char c t = false ->
  exists pre a, t = pre +:+ String a "" /\ a <> c.
Proof.
  induction t as [|x t IH]; intros Hne Hc; [done|].
  apply has_char_cons in Hc as [Hx Ht].
  destruct t as [|y t].
  - by exists "", x.
  - destruct IH as (pre & a & Heq & Ha); [done|exact Ht|].
    exists (String x pre), a. simpl. by rewrite <- Heq.
Qed.

Section Roundtrip.

Variables (d : ascii) (rows : table).

Let delim := String d "".
Let lines := map (fun i => join delim i) rows.

Hypothesis Hd : d <> "010"%char.
Hypothesis Hrows : rows <> [].
Hypothesis Hplain : plain d rows.

Lemma lines_no_newline : Forall (fun x => has_char "010"%char x = false) lines.
Proof.
  subst lines. apply Forall_fmap. unfold plain in Hplain.
  eapply Forall_impl; [exact Hplain|].
  intros r [_ Hr]. simpl. apply has_char_join; [congruence|].
  eapply Forall_impl; [exact Hr|]. by intros x [_ Hx].
Qed.

Lemma lines_split : Forall2 (fun x y => split delim x = Some y) lines rows.
Proof.
  subst lines. apply Forall2_fmap_l, Forall_Forall2_diag.
  eapply Forall_impl; [exact Hplain|].
  intros r [Hne Hr]. unfold split. simpl.
  f_equal. apply split_join; [exact Hne|].
  eapply Forall_impl; [exact Hr|]. by intros x [Hx _].
Qed.

Lemma unformat_format : unformat delim (format delim rows) = Some rows.
Proof.
  unfold unformat, format, split at 1. simpl.
  fold lines. unfold newline.
  rewrite split_lines; [|subst lines; by destruct rows|exact lines_no_newline].
  rewrite removelast_last.
  apply mapM_Some. exact lines_split.
Qed.

Lemma format_one_newline :
  last rows <> Some [""] -> one_trailing_newline (format delim rows) = true.
Proof.
  intros Hlast. unfold one_trailing_newline, format.
  rewrite endswith_app by reflexivity.
  rewrite String.eqb_refl. simpl.
  destruct (exists_last Hrows) as (rs & r & Heq).
  fold lines. assert (Hl : lines = map (fun i => join delim i) rs ++ [join delim r]).
  { unfold lines. rewrite Heq. apply map_app. }
  rewrite Hl. unfold newline.
  destruct (join_last "010"%char (map (fun i => join delim i) rs)
              (join delim r)) as [pre Hpre].
  rewrite Hpre.
  assert (Hr : r <> [] /\ r <> [""] /\ has_char "010"%char (join delim r) = false).
  { rewrite Heq in Hlast. rewrite last_snoc in Hlast.
    pose proof lines_no_newline as Hn. rewrite Hl in Hn.
    apply Forall_app in Hn as [_ Hn]. apply Forall_inv in Hn.
    pose proof Hplain as Hp. unfold plain in Hp. rewrite Heq in Hp.
    apply Forall_app in Hp as [_ Hp]. apply Forall_inv in Hp as [Hne _].
    repeat split; [exact Hne|congruence|exact Hn]. }
  destruct Hr as (Hne & Hne1 & Hnl).
  destruct (last_char "010"%char (join delim r)) as (pre' & a & Hline & Ha);
    [by apply join_not_empty|exact Hnl|].
  rewrite Hline, !str_app_assoc. simpl.
  rewrite <- str_app_assoc, endswith_app by reflexivity.
  apply negb_true_iff, String.eqb_neq. congruence.
Qed.

End Roundtrip.

Lemma format_ends_with_newline (delim : string) (rows : table) :
  endswith (format delim rows) newline = true.
Proof.
  unfold format. rewrite endswith_app by reflexivity. apply String.eqb_refl.
Qed.

(** C3 (as stated, refuted).  The stored rows [[a],[""]] (a missing value
    in the last row) give a text that ends with two newlines, and an empty
    list of stored rows gives the text of a single newline, which reads
    back as one row with one empty cell. *)
Lemma to_string_roundtrip_fails :
  ~ (forall (s s' : AthenaResult.state) (l : loc) (rows : table) (out : string),
        AthenaResult.results (AthenaResult.self s) = Some l ->
        AthenaResult.heap s !! l = Some rows ->
        AthenaResult.to_string tab s = Ok out s' ->
        one_trailing_newline out = true) /\
  ~ (forall (s s' : AthenaResult.state) (l : loc) (rows : table) (out : string),
        AthenaResult.results (AthenaResult.self s) = Some l ->
        AthenaResult.heap s !! l = Some rows ->
        AthenaResult.to_string tab s = Ok out s' ->
        unformat tab out = Some rows).
Proof.
  split; intros H.
  - specialize (H (holding [["a"]; [""]]) _ 0 _ _ eq_refl eq_refl eq_refl).
    vm_compute in H. discriminate H.
  - specialize (H (holding []) _ 0 _ _ eq_refl eq_refl eq_refl).
    vm_compute in H. discriminate H.
Qed.

(** C3 (amended).  [to_string] returns the stored rows joined by the
    delimiter and by newlines, followed by one newline, so its output
    always ends with a newline.  For a delimiter of one character other
    than newline and a non-empty list of rows in which every row has a cell
    and no cell contains the delimiter or a newline, splitting the output
    on newlines, dropping the last segment and splitting each line on the
    delimiter gives the rows back; if moreover the last row is not the
    single empty cell, the output ends with exactly one newline. *)
Theorem to_string_roundtrip
  (d : ascii) (s : AthenaResult.state) (l : loc) (rows : table) :
  let delim := String d "" in
  AthenaResult.results (AthenaResult.self s) = Some l ->
  AthenaResult.heap s !! l = Some rows ->
  exists s',
    AthenaResult.to_string delim s = Ok (format delim rows) s' /\
    endswith (format delim rows) newline = true /\
    (d <> "010"%char -> rows <> [] -> plain d rows ->
     unformat delim (format delim rows) = Some rows /\
     (last rows <> Some [""] ->
      one_trailing_newline (format delim rows) = true)).
Proof.
  intros delim Hres Hrows.
  eexists. split; [|split].
  - rewrite (to_string_stored delim s l Hres), Hrows. reflexivity.
  - apply format_ends_with_newline.
  - intros Hd Hne Hplain. split.
    + by apply unformat_format.
    + by apply format_one_newline.
Qed.

Lemma to_string_roundtrip_witness :
  exists s',
    AthenaResult.to_string tab (holding [["1"; "2"]; ["3"; "4"]])
      = Ok (format tab [["1"; "2"]; ["3"; "4"]]) s' /\
    endswith (format tab [["1"; "2"]; ["3"; "4"]]) newline = true /\
    unformat tab (format tab [["1"; "2"]; ["3"; "4"]])
      = Some [["1"; "2"]; ["3"; "4"]] /\
    one_trailing_newline (format tab [["1"; "2"]; ["3"; "4"]]) = true.
Proof.
  destruct (to_string_roundtrip "009"%char (holding [["1"; "2"]; ["3"; "4"]])
              0 [["1"; "2"]; ["3"; "4"]] eq_refl eq_refl)
    as (s' & Hrun & Hend & Hback).
  assert (Hd : "009"%char <> "010"%char) by discriminate.
  assert (Hne : [["1"; "2"]; ["3"; "4"]] <> ([] : table)) by discriminate.
  assert (Hplain : plain "009" [["1"; "2"]; ["3"; "4"]])
    by repeat (constructor || discriminate).
  destruct (Hback Hd Hne Hplain) as [Hrt Hone].
  exists s'.
  split; [exact Hrun|]. split; [exact Hend|]. split; [exact Hrt|].
  apply Hone. discriminate.
Defined.


(** * Further properties *)

(** ** [Athena.query] and [Athena.repair_table] *)

Section Submission.

Variables (self : Athena.t) (q : string) (h0 : list call).

Let c := Athena.client self.
Let submit := Start_query_execution q (Athena.database self) (Athena.s3_path self).

(** After an accepted submission, [query] is the poll loop entered after
    the first sleep. *)
Lemma query_accepted (fuel : nat) (id : string) :
  start_query_execution c h0 q (Athena.database self) (Athena.s3_path self)
    = inr id ->
  Athena.query fuel self q h0 =
  match Athena.poll fuel self id (h0 ++ [submit; Sleep 3]) with
  | None => None
  | Some (Raise e h3) => Some (Raise e h3)
  | Some (Ok _ h3) =>
      Some (Ok (AthenaResult.__init__ c (Athena.database self) id
                  (Athena.s3_path self)) h3)
  end.
Proof.
  intros Hstart. unfold Athena.query, Athena.remote. fold c. rewrite Hstart.
  simpl. by rewrite <- app_assoc.
Qed.

End Submission.

Lemma slept_app (h h' : list call) : slept (h ++ h') = slept h + slept h'.
Proof. unfold slept. by rewrite map_app, sum_list_with_app. Qed.

Lemma checks_app (h h' : list call) : checks (h ++ h') = checks h + checks h'.
Proof. unfold checks. by rewrite List.filter_app, length_app. Qed.

(** The rounds of the poll loop: what they add to a history. *)
Lemma rounds_measures (id : string) (n : nat) :
  let rounds := concat (replicate n [Get_query_results id; Sleep 10]) in
  slept rounds = 10 * n /\ checks rounds = n /\ fetches rounds = 0.
Proof.
  induction n as [|n (IHs & IHc & IHf)]; [done|].
  cbn [replicate concat].
  rewrite slept_app, checks_app, fetches_app, IHs, IHc, IHf.
  unfold slept, checks, fetches. simpl. repeat split; lia.
Qed.

(** X1.  A submission the service rejects ends [query] at once, with the
    service's exception: nothing is slept and no readiness check is made,
    whatever the number of turns allowed to the loop. *)
Theorem query_submission_rejected
  (fuel : nat) (self : Athena.t) (q : string) (h0 : list call) (e : exn) :
  start_query_execution (Athena.client self) h0 q (Athena.database self)
    (Athena.s3_path self) = inl e ->
  Athena.query fuel self q h0 =
  Some (Raise e (h0 ++ [Start_query_execution q (Athena.database self)
                          (Athena.s3_path self)])).
Proof.
  intros Hstart. unfold Athena.query, Athena.remote. by rewrite Hstart.
Qed.

Lemma query_submission_rejected_witness :
  Athena.query 0 (Athena.__init__ rejecting "nowhere" "s3://cmathenalogs/")
    "SELECT 1" [] =
  Some (Raise (ClientError "Database does not exist")
          [Start_query_execution "SELECT 1" "nowhere" "s3://cmathenalogs/"]).
Proof.
  apply (query_submission_rejected 0
           (Athena.__init__ rejecting "nowhere" "s3://cmathenalogs/")
           "SELECT 1" []).
  reflexivity.
Defined.

(** X2.  When the readiness check raises [n] times and then answers,
    [query] has slept [3 + 10 * n] seconds, made [n + 1] readiness checks
    and no paginated fetch by the time it returns. *)
Theorem query_waits
  (self : Athena.t) (q : string) (h0 : list call) (id : string)
  (n : nat) (p : page) (fuel : nat) :
  let c := Athena.client self in
  let h := h0 ++ [Start_query_execution q (Athena.database self)
                    (Athena.s3_path self); Sleep 3] in
  start_query_execution c h0 q (Athena.database self) (Athena.s3_path self)
    = inr id ->
  (forall k, k < n ->
     exists e, get_query_results c (retried h id k) id = inl e) ->
  get_query_results c (retried h id n) id = inr p ->
  n < fuel ->
  exists r h',
    Athena.query fuel self q h0 = Some (Ok r h') /\
    slept h' = slept h0 + 3 + 10 * n /\
    checks h' = checks h0 + n + 1 /\
    fetches h' = fetches h0.
Proof.
  intros c h Hstart Hfail Hok Hfuel.
  eexists _, _. split.
  - rewrite (query_accepted self q h0 fuel id Hstart).
    fold h. by rewrite (poll_success self id n fuel h p Hfuel Hfail Hok).
  - destruct (rounds_measures id n) as (Hs & Hc & Hf).
    unfold retried, h.
    rewrite !slept_app, !checks_app, !fetches_app, Hs, Hc, Hf.
    unfold slept, checks, fetches. simpl. repeat split; lia.
Qed.

Lemma query_waits_witness :
  exists r h',
    Athena.query 5
      (Athena.__init__ (ready_after 2 two_pages) "default" "s3://cmathenalogs/")
      "SELECT 1" [] = Some (Ok r h') /\
    slept h' = 0 + 3 + 10 * 2 /\
    checks h' = 0 + 2 + 1 /\
    fetches h' = 0.
Proof.
  apply (query_waits
           (Athena.__init__ (ready_after 2 two_pages) "default"
              "s3://cmathenalogs/")
           "SELECT 1" [] "q-1" 2 (hd (text_page []) two_pages) 5).
  - reflexivity.
  - intros [|[|k]] Hk.
    + eexists; reflexivity.
    + eexists; reflexivity.
    + exfalso. do 2 apply Nat.succ_lt_mono in Hk. exact (Nat.nlt_0_r _ Hk).
  - reflexivity.
  - repeat constructor.
Defined.

(** X3.  [repair_table] submits the statement [MSCK REPAIR TABLE <table>],
    waits for it exactly as [query] does, and returns nothing: the
    [AthenaResult] is dropped. *)
Theorem repair_table_runs_query
  (self : Athena.t) (table : string) (h0 : list call) (id : string)
  (n : nat) (p : page) (fuel : nat) :
  let c := Athena.client self in
  let q := "MSCK REPAIR TABLE " +:+ table in
  let h := h0 ++ [Start_query_execution q (Athena.database self)
                    (Athena.s3_path self); Sleep 3] in
  start_query_execution c h0 q (Athena.database self) (Athena.s3_path self)
    = inr id ->
  (forall k, k < n ->
     exists e, get_query_results c (retried h id k) id = inl e) ->
  get_query_results c (retried h id n) id = inr p ->
  n < fuel ->
  Athena.repair_table fuel self table h0 =
  Some (Ok tt (retried h id n ++ [Get_query_results id])).
Proof.
  intros c q h Hstart Hfail Hok Hfuel.
  unfold Athena.repair_table. fold q.
  rewrite (query_accepted self q h0 fuel id Hstart). fold h.
  by rewrite (poll_success self id n fuel h p Hfuel Hfail Hok).
Qed.

Lemma repair_table_runs_query_witness :
  Athena.repair_table 3
    (Athena.__init__ (ready_after 1 []) "default" "s3://cmathenalogs/")
    "logs" [] =
  Some (Ok tt [Start_query_execution "MSCK REPAIR TABLE logs" "default"
                 "s3://cmathenalogs/";
               Sleep 3;
               Get_query_results "q-1"; Sleep 10;
               Get_query_results "q-1"]).
Proof.
  apply (repair_table_runs_query
           (Athena.__init__ (ready_after 1 []) "default" "s3://cmathenalogs/")
           "logs" [] "q-1" 1 (text_page []) 3).
  - reflexivity.
  - intros [|k] Hk.
    + eexists; reflexivity.
    + exfalso. apply Nat.succ_lt_mono in Hk. exact (Nat.nlt_0_r _ Hk).
  - reflexivity.
  - repeat constructor.
Defined.

(** ** [AthenaResult._result_csv] *)

Lemma substring_split (s : string) :
  forall n, n <= String.length s ->
    s = substring 0 n s +:+ substring n (String.length s - n) s.
Proof.
  induction s as [|a s IH]; intros [|n] Hn; simpl in *; try lia.
  - reflexivity.
  - by rewrite substring_all.
  - f_equal. apply IH. lia.
Qed.

(** [s.endswith(suffix)] holds exactly when [s] is some text followed by
    [suffix]. *)
Lemma endswith_inv (s suffix : string) :
  endswith s suffix = true -> exists pre, s = pre +:+ suffix.
Proof.
  unfold endswith. intros H.
  apply andb_true_iff in H as [Hlen Heq].
  apply Nat.leb_le in Hlen. apply String.eqb_eq in Heq.
  exists (substring 0 (String.length s - String.length suffix) s).
  pose proof (substring_split s (String.length s - String.length suffix)) as Hs.
  replace (String.length s - (String.length s - String.length suffix))
    with (String.length suffix) in Hs by lia.
  rewrite Heq in Hs. apply Hs. lia.
Qed.

(** X4.  The path an [AthenaResult] keeps always ends with
    [/<query_id>.csv], whether or not the staging location given to the
    constructor ends with a slash (or is empty). *)
Theorem result_csv_suffix
  (c : service) (database query_id s3_path : string) :
  endswith
    (AthenaResult.s3_path (AthenaResult.__init__ c database query_id s3_path))
    ("/" +:+ query_id +:+ ".csv") = true.
Proof.
  simpl. unfold AthenaResult._result_csv.
  destruct (endswith s3_path "/") eqn:Hslash.
  - destruct (endswith_inv _ _ Hslash) as [pre ->].
    rewrite str_app_assoc, endswith_app by reflexivity.
    apply String.eqb_refl.
  - rewrite str_app_assoc, endswith_app by reflexivity.
    apply String.eqb_refl.
Qed.

(** X5.  A trailing slash on the staging location makes no difference: a
    location without one gives the same path as the location with one
    appended. *)
Theorem result_csv_trailing_slash (s3_path query_id : string) :
  endswith s3_path "/" = false ->
  AthenaResult._result_csv (s3_path +:+ "/") query_id =
  AthenaResult._result_csv s3_path query_id.
Proof.
  intros Hslash. unfold AthenaResult._result_csv.
  rewrite Hslash, endswith_app by reflexivity.
  reflexivity.
Qed.

Lemma result_csv_trailing_slash_witness :
  AthenaResult._result_csv ("s3://cmathenalogs" +:+ "/") "q-1" =
  AthenaResult._result_csv "s3://cmathenalogs" "q-1".
Proof.
  apply (result_csv_trailing_slash "s3://cmathenalogs" "q-1"). reflexivity.
Defined.

(** ** [AthenaResult.result]: errors, edge cases, the store *)

Section Methods.

Import AthenaResult.

Lemma result_raise_check (header : bool) (s : state) (e : exn) :
  get_query_results (client (self s)) (log s) (query_id (self s)) = inl e ->
  result header s =
  Raise e (State (self s) (heap s)
             (log s ++ [Get_query_results (query_id (self s))])).
Proof.
  intros Hget. unfold result, bind, gets, remote. simpl. by rewrite Hget.
Qed.

Lemma result_raise_fetch (header : bool) (s : state) (qr : page) (e : exn) :
  get_query_results (client (self s)) (log s) (query_id (self s)) = inr qr ->
  paginate (client (self s)) (log s ++ [Get_query_results (query_id (self s))])
    (query_id (self s)) = inl e ->
  result header s =
  Raise e (State (self s) (heap s)
             (log s ++ [Get_query_results (query_id (self s));
                        Paginate (query_id (self s))])).
Proof.
  intros Hget Hpag. unfold result, bind, gets, remote. simpl.
  rewrite Hget. simpl. rewrite Hpag. simpl. by rewrite <- app_assoc.
Qed.

(** A [result] that raises leaves the object and the store as they were. *)
Lemma result_raise_frame (header : bool) (s s' : state) (e : exn) :
  result header s = Raise e s' -> self s' = self s /\ heap s' = heap s.
Proof.
  intros Hrun.
  destruct (get_query_results (client (self s)) (log s) (query_id (self s)))
    as [e0|qr] eqn:Hget.
  { rewrite (result_raise_check header s e0 Hget) in Hrun.
    by injection Hrun as <- <-. }
  destruct (paginate (client (self s))
              (log s ++ [Get_query_results (query_id (self s))])
              (query_id (self s))) as [e0|pages] eqn:Hpag.
  { rewrite (result_raise_fetch header s qr e0 Hget Hpag) in Hrun.
    by injection Hrun as <- <-. }
  rewrite (result_run header s qr pages Hget Hpag) in Hrun. discriminate Hrun.
Qed.

(** [to_string] with no rows stored, in terms of what [result] does. *)
Lemma to_string_after_result (delim : string) (s : state) :
  results (self s) = None ->
  to_string delim s =
  match result true s with
  | Ok l s1 =>
      let out := format delim (default [] (heap s1 !! l)) in
      Ok out (State (with_results_str (with_results (self s1) (Some l)) (Some out))
                (heap s1) (log s1))
  | Raise e s1 => Raise e s1
  end.
Proof.
  intros Hnone. unfold to_string, bind, gets. simpl. rewrite Hnone.
  by destruct (result true s).
Qed.

(** What a successful [to_string] leaves behind. *)
Lemma to_string_ok_inv (delim : string) (s s1 : state) (out : string) :
  to_string delim s = Ok out s1 ->
  exists l,
    results (self s1) = Some l /\
    results_str (self s1) = Some out /\
    out = format delim (default [] (heap s1 !! l)).
Proof.
  intros Hrun. destruct (results (self s)) as [l|] eqn:Hres.
  - rewrite (to_string_stored delim s l Hres) in Hrun.
    injection Hrun as <- <-. exists l. by simpl.
  - rewrite (to_string_after_result delim s Hres) in Hrun.
    destruct (result true s) as [l s2|e s2]; [|discriminate Hrun].
    injection Hrun as <- <-. exists l. by simpl.
Qed.

Lemma to_s3_stored (bucket file_name body : string) (s : state) :
  results_str (self s) = Some body ->
  to_s3 bucket file_name s =
  remote (Put bucket file_name body)
    (fun c h => put c h bucket file_name body) s.
Proof.
  intros Hstr. unfold to_s3, bind, gets. simpl. by rewrite Hstr.
Qed.

Lemma to_s3_after_to_string (bucket file_name : string) (s : state) :
  results_str (self s) = None ->
  to_s3 bucket file_name s =
  match to_string tab s with
  | Ok out s1 =>
      remote (Put bucket file_name out)
        (fun c h => put c h bucket file_name out)
        (State (with_results_str (self s1) (Some out)) (heap s1) (log s1))
  | Raise e s1 => Raise e s1
  end.
Proof.
  intros Hnone. unfold to_s3, bind, gets. simpl. rewrite Hnone.
  by destruct (to_string tab s).
Qed.

Lemma remote_frame {A} (c : call) (answer : service -> list call -> exn + A)
  (s : state) :
  self (final_state (remote c answer s)) = self s /\
  heap (final_state (remote c answer s)) = heap s /\
  log (final_state (remote c answer s)) = log s ++ [c].
Proof. unfold remote. by destruct (answer _ _). Qed.

(** The store only grows: [result] adds at most one list at the end. *)
Lemma result_heap_extends (header : bool) (s : state) :
  exists ext, heap (final_state (result header s)) = heap s ++ ext.
Proof.
  destruct (get_query_results (client (self s)) (log s) (query_id (self s)))
    as [e|qr] eqn:Hget.
  { rewrite (result_raise_check header s e Hget). exists []. simpl.
    by rewrite app_nil_r. }
  destruct (paginate (client (self s))
              (log s ++ [Get_query_results (query_id (self s))])
              (query_id (self s))) as [e|pages] eqn:Hpag.
  { rewrite (result_raise_fetch header s qr e Hget Hpag). exists []. simpl.
    by rewrite app_nil_r. }
  rewrite (result_run header s qr pages Hget Hpag). by eexists.
Qed.

Lemma to_string_heap_extends (delim : string) (s : state) :
  exists ext, heap (final_state (to_string delim s)) = heap s ++ ext.
Proof.
  destruct (results (self s)) as [l|] eqn:Hres.
  - rewrite (to_string_stored delim s l Hres). exists []. simpl.
    by rewrite app_nil_r.
  - rewrite (to_string_after_result delim s Hres).
    destruct (result_heap_extends true s) as [ext Hext].
    exists ext. by destruct (result true s).
Qed.

Lemma to_s3_heap_extends (bucket file_name : string) (s : state) :
  exists ext, heap (final_state (to_s3 bucket file_name s)) = heap s ++ ext.
Proof.
  destruct (results_str (self s)) as [body|] eqn:Hstr.
  - rewrite (to_s3_stored bucket file_name body s Hstr).
    destruct (remote_frame (Put bucket file_name body)
                (fun c h => put c h bucket file_name body) s) as (_ & -> & _).
    exists []. by rewrite app_nil_r.
  - rewrite (to_s3_after_to_string bucket file_name s Hstr).
    destruct (to_string_heap_extends tab s) as [ext Hext].
    exists ext. destruct (to_string tab s) as [out s1|e s1]; [|exact Hext].
    match goal with
    | |- context [remote ?c ?a ?s0] =>
        destruct (remote_frame c a s0) as (_ & -> & _)
    end.
    exact Hext.
Qed.

End Methods.

Section ResultProperties.

Import AthenaResult.

(** X6.  When the readiness check raises, [result] raises the same
    exception right after it: no paginated fetch is made, the object and
    the store are untouched.  [to_string] on an object without stored rows
    ends the same way. *)
Theorem failed_check_stops_result
  (header : bool) (delim : string) (s : state) (e : exn) :
  let id := query_id (self s) in
  get_query_results (client (self s)) (log s) id = inl e ->
  result header s =
    Raise e (State (self s) (heap s) (log s ++ [Get_query_results id])) /\
  (results (self s) = None ->
   to_string delim s =
     Raise e (State (self s) (heap s) (log s ++ [Get_query_results id]))).
Proof.
  intros id Hget. split.
  - exact (result_raise_check header s e Hget).
  - intros Hnone.
    by rewrite (to_string_after_result delim s Hnone),
               (result_raise_check true s e Hget).
Qed.

Lemma failed_check_stops_result_witness :
  result true (fresh unreadable) =
    Raise (ClientError "Query has failed")
      (State (self (fresh unreadable)) [] [Get_query_results "q-1"]) /\
  (results (self (fresh unreadable)) = None ->
   to_string tab (fresh unreadable) =
     Raise (ClientError "Query has failed")
       (State (self (fresh unreadable)) [] [Get_query_results "q-1"])).
Proof.
  apply (failed_check_stops_result true tab (fresh unreadable)
           (ClientError "Query has failed")).
  reflexivity.
Defined.

(** X7.  When the paginated fetch raises, the exception leaves [result]
    uncaught and nothing is stored: [self.results] and the store are as
    before.  [to_string] on an object without stored rows ends the same
    way, with no string stored either. *)
Theorem failed_fetch_stores_nothing
  (header : bool) (delim : string) (s : state) (qr : page) (e : exn) :
  let id := query_id (self s) in
  get_query_results (client (self s)) (log s) id = inr qr ->
  paginate (client (self s)) (log s ++ [Get_query_results id]) id = inl e ->
  result header s =
    Raise e (State (self s) (heap s)
               (log s ++ [Get_query_results id; Paginate id])) /\
  (results (self s) = None ->
   to_string delim s =
     Raise e (State (self s) (heap s)
                (log s ++ [Get_query_results id; Paginate id]))).
Proof.
  intros id Hget Hpag. split.
  - exact (result_raise_fetch header s qr e Hget Hpag).
  - intros Hnone.
    by rewrite (to_string_after_result delim s Hnone),
               (result_raise_fetch true s qr e Hget Hpag).
Qed.

Lemma failed_fetch_stores_nothing_witness :
  result false (fresh broken_fetch) =
    Raise (ClientError "Throttled")
      (State (self (fresh broken_fetch)) []
         [Get_query_results "q-1"; Paginate "q-1"]) /\
  (results (self (fresh broken_fetch)) = None ->
   to_string tab (fresh broken_fetch) =
     Raise (ClientError "Throttled")
       (State (self (fresh broken_fetch)) []
          [Get_query_results "q-1"; Paginate "q-1"])).
Proof.
  apply (failed_fetch_stores_nothing false tab (fresh broken_fetch)
           (text_page []) (ClientError "Throttled")); reflexivity.
Defined.

(** X8.  [result] raises only what the service raised, from the readiness
    check or from the paginated fetch; in particular the guarded [pop(0)]
    never fails.  The object and the store are then unchanged. *)
Theorem result_raises_only_from_service
  (header : bool) (s s' : state) (e : exn) :
  let id := query_id (self s) in
  result header s = Raise e s' ->
  (get_query_results (client (self s)) (log s) id = inl e \/
   exists qr,
     get_query_results (client (self s)) (log s) id = inr qr /\
     paginate (client (self s)) (log s ++ [Get_query_results id]) id = inl e) /\
  self s' = self s /\ heap s' = heap s.
Proof.
  intros id Hrun.
  destruct (get_query_results (client (self s)) (log s) id) as [e0|qr] eqn:Hget.
  { rewrite (result_raise_check header s e0 Hget) in Hrun.
    injection Hrun as <- <-. by split; [left|]. }
  destruct (paginate (client (self s)) (log s ++ [Get_query_results id]) id)
    as [e0|pages] eqn:Hpag.
  { rewrite (result_raise_fetch header s qr e0 Hget Hpag) in Hrun.
    injection Hrun as <- <-. split; [right; by exists qr|done]. }
  rewrite (result_run header s qr pages Hget Hpag) in Hrun. discriminate Hrun.
Qed.

Lemma result_raises_only_from_service_witness :
  (get_query_results unreadable [] "q-1" = inl (ClientError "Query has failed") \/
   exists qr,
     get_query_results unreadable [] "q-1" = inr qr /\
     paginate unreadable [Get_query_results "q-1"] "q-1"
       = inl (ClientError "Query has failed")) /\
  self (State (self (fresh unreadable)) [] [Get_query_results "q-1"])
    = self (fresh unreadable) /\
  heap (State (self (fresh unreadable)) [] [Get_query_results "q-1"]) = [].
Proof.
  apply (result_raises_only_from_service true (fresh unreadable)
           (State (self (fresh unreadable)) [] [Get_query_results "q-1"])
           (ClientError "Query has failed")).
  reflexivity.
Defined.

(** X9.  [to_string] can raise only while it has no rows stored, and then
    only what the service raised during the fetch; the object and the
    store are unchanged.  With rows stored it always returns. *)
Theorem to_string_raises_only_when_fetching
  (delim : string) (s s' : state) (e : exn) :
  to_string delim s = Raise e s' ->
  results (self s) = None /\
  result true s = Raise e s' /\
  self s' = self s /\ heap s' = heap s.
Proof.
  intros Hrun. destruct (results (self s)) as [l|] eqn:Hres.
  - rewrite (to_string_stored delim s l Hres) in Hrun. discriminate Hrun.
  - rewrite (to_string_after_result delim s Hres) in Hrun.
    destruct (result true s) as [l s1|e1 s1] eqn:Hr; [discriminate Hrun|].
    injection Hrun as -> ->.
    by destruct (result_raise_frame true s s' e Hr).
Qed.

End ResultProperties.

Section StoreProperties.

Import AthenaResult.

Lemma to_string_raises_only_when_fetching_witness :
  results (self (fresh unreadable)) = None /\
  result true (fresh unreadable) =
    Raise (ClientError "Query has failed")
      (State (self (fresh unreadable)) [] [Get_query_results "q-1"]) /\
  self (State (self (fresh unreadable)) [] [Get_query_results "q-1"])
    = self (fresh unreadable) /\
  heap (State (self (fresh unreadable)) [] [Get_query_results "q-1"]) = [].
Proof.
  apply (to_string_raises_only_when_fetching tab (fresh unreadable)
           (State (self (fresh unreadable)) [] [Get_query_results "q-1"])
           (ClientError "Query has failed")).
  reflexivity.
Defined.

(** X10.  When the service returns pages that hold at most one row in all
    (a header and no data, or pages without rows), [result] returns an
    empty list and, unlike the case of zero pages, stores it: a following
    [to_string] makes no remote call and returns a single newline. *)
Theorem header_only_result_is_stored
  (header : bool) (s : state) (qr : page) (pages : list page) :
  let id := query_id (self s) in
  get_query_results (client (self s)) (log s) id = inr qr ->
  paginate (client (self s)) (log s ++ [Get_query_results id]) id = inr pages ->
  pages <> [] ->
  length (all_rows pages) <= 1 ->
  exists l s1,
    result header s = Ok l s1 /\
    heap s1 !! l = Some [] /\
    results (self s1) = Some l /\
    forall delim, exists s2,
      to_string delim s1 = Ok newline s2 /\ log s2 = log s1.
Proof.
  intros id Hget Hpag Hne Hlen.
  assert (Htl : tail (decode_pages pages) = []).
  { rewrite decode_pages_all_rows.
    destruct (all_rows pages) as [|r [|r' rs]]; simpl in *; [done|done|lia]. }
  eexists _, _. split; [exact (result_run header s qr pages Hget Hpag)|].
  rewrite Htl. destruct pages as [|p ps]; [done|]. cbv iota.
  set (s1 := State _ _ _).
  assert (Hres : results (self s1) = Some (length (heap s))) by reflexivity.
  assert (Hrows : heap s1 !! length (heap s) = Some []) by apply alloc_lookup.
  split; [exact Hrows|]. split; [exact Hres|].
  intros delim. eexists. split.
  - rewrite (to_string_stored delim s1 _ Hres), Hrows. reflexivity.
  - reflexivity.
Qed.

Lemma header_only_result_is_stored_witness :
  exists l s1,
    result true (fresh (finished [text_page [["a"; "b"]]])) = Ok l s1 /\
    heap s1 !! l = Some [] /\
    results (self s1) = Some l /\
    forall delim, exists s2,
      to_string delim s1 = Ok newline s2 /\ log s2 = log s1.
Proof.
  apply (header_only_result_is_stored true
           (fresh (finished [text_page [["a"; "b"]]]))
           (text_page [["a"; "b"]]) [text_page [["a"; "b"]]]).
  - reflexivity.
  - reflexivity.
  - discriminate.
  - repeat constructor.
Defined.

(** X11.  Whenever the service answers, [result] returns one row fewer
    than the pages hold in all, and no row when they hold none. *)
Theorem result_length
  (header : bool) (s : state) (qr : page) (pages : list page) :
  let id := query_id (self s) in
  get_query_results (client (self s)) (log s) id = inr qr ->
  paginate (client (self s)) (log s ++ [Get_query_results id]) id = inr pages ->
  exists l s1 (t : table),
    result header s = Ok l s1 /\
    heap s1 !! l = Some t /\
    length t = length (all_rows pages) - 1.
Proof.
  intros id Hget Hpag.
  eexists _, _, _. split; [exact (result_run header s qr pages Hget Hpag)|].
  split; [apply alloc_lookup|].
  rewrite decode_pages_all_rows.
  destruct (all_rows pages) as [|r rs]; simpl; [done|].
  rewrite length_map. lia.
Qed.

Lemma result_length_witness :
  exists l s1 (t : table),
    result true (fresh (finished two_pages)) = Ok l s1 /\
    heap s1 !! l = Some t /\
    length t = length (all_rows two_pages) - 1.
Proof.
  apply (result_length true (fresh (finished two_pages))
           (hd (text_page []) two_pages) two_pages); reflexivity.
Defined.

(** X12.  No method changes or removes a list that is already in the
    store: a list returned by an earlier [result] still holds the same rows
    after any later [result], [to_string] or [to_s3], however that call
    ends. *)
Theorem earlier_lists_untouched
  (header : bool) (delim bucket file_name : string) (s : state)
  (l : loc) (rows : table) :
  heap s !! l = Some rows ->
  heap (final_state (result header s)) !! l = Some rows /\
  heap (final_state (to_string delim s)) !! l = Some rows /\
  heap (final_state (to_s3 bucket file_name s)) !! l = Some rows.
Proof.
  intros Hl.
  destruct (result_heap_extends header s) as [e1 ->].
  destruct (to_string_heap_extends delim s) as [e2 ->].
  destruct (to_s3_heap_extends bucket file_name s) as [e3 ->].
  repeat split; by apply lookup_app_l_Some.
Qed.

Lemma earlier_lists_untouched_witness :
  heap (final_state (result true (holding [["x"]]))) !! 0 = Some [["x"]] /\
  heap (final_state (to_string tab (holding [["x"]]))) !! 0 = Some [["x"]] /\
  heap (final_state (to_s3 "bucket" "key" (holding [["x"]]))) !! 0
    = Some [["x"]].
Proof.
  apply (earlier_lists_untouched true tab "bucket" "key" (holding [["x"]]) 0).
  reflexivity.
Defined.

(** X13.  A [to_string] that returned can be repeated at no cost: called
    again with the same delimiter it returns the same text, makes no remote
    call and leaves the state exactly as it was. *)
Theorem to_string_repeatable (delim : string) (s s1 : state) (out : string) :
  to_string delim s = Ok out s1 ->
  to_string delim s1 = Ok out s1.
Proof.
  intros Hrun.
  destruct (to_string_ok_inv delim s s1 out Hrun) as (l & Hres & Hstr & Hout).
  rewrite (to_string_stored delim s1 l Hres), <- Hout.
  f_equal. destruct s1 as [[c db qid path r rs] h lg]. simpl in *.
  by rewrite Hstr.
Qed.

Lemma to_string_repeatable_witness :
  to_string tab
    (State (with_results_str (self (holding [["1"; "2"]]))
              (Some (format tab [["1"; "2"]])))
       [[["1"; "2"]]] []) =
  Ok (format tab [["1"; "2"]])
    (State (with_results_str (self (holding [["1"; "2"]]))
              (Some (format tab [["1"; "2"]])))
       [[["1"; "2"]]] []).
Proof.
  apply (to_string_repeatable tab (holding [["1"; "2"]])).
  reflexivity.
Defined.

End StoreProperties.

(** ** [AthenaResult.to_s3] *)

Section Upload.

Import AthenaResult.

(** X14.  Once a string is stored, [to_s3] uploads that string and does
    nothing else: no readiness check, no fetch, no new formatting, whatever
    rows are or are not stored by then. *)
Theorem to_s3_uploads_stored_string
  (bucket file_name body : string) (s : state) :
  results_str (self s) = Some body ->
  final_log (to_s3 bucket file_name s) = log s ++ [Put bucket file_name body] /\
  self (final_state (to_s3 bucket file_name s)) = self s /\
  heap (final_state (to_s3 bucket file_name s)) = heap s.
Proof.
  intros Hstr. rewrite (to_s3_stored bucket file_name body s Hstr).
  destruct (remote_frame (Put bucket file_name body)
              (fun c h => put c h bucket file_name body) s) as (Hs & Hh & Hl).
  split; [|by split].
  rewrite <- Hl. by destruct (remote _ _ s).
Qed.

Lemma to_s3_uploads_stored_string_witness :
  final_log
    (to_s3 "bucket" "key"
       (State (with_results_str (self (fresh (finished two_pages)))
                 (Some "old text")) [] [])) =
    [] ++ [Put "bucket" "key" "old text"] /\
  self (final_state
          (to_s3 "bucket" "key"
             (State (with_results_str (self (fresh (finished two_pages)))
                       (Some "old text")) [] []))) =
    with_results_str (self (fresh (finished two_pages))) (Some "old text") /\
  heap (final_state
          (to_s3 "bucket" "key"
             (State (with_results_str (self (fresh (finished two_pages)))
                       (Some "old text")) [] []))) = [].
Proof.
  apply (to_s3_uploads_stored_string "bucket" "key" "old text"
           (State (with_results_str (self (fresh (finished two_pages)))
                     (Some "old text")) [] [])).
  reflexivity.
Defined.

(** X15.  After a [to_string] that returned, [to_s3] uploads the very text
    [to_string] returned, in the delimiter given to [to_string], not a text
    formatted anew with tabs. *)
Theorem to_s3_after_to_string_uploads_its_text
  (delim bucket file_name : string) (s s1 : state) (out : string) :
  to_string delim s = Ok out s1 ->
  final_log (to_s3 bucket file_name s1) = log s1 ++ [Put bucket file_name out].
Proof.
  intros Hrun.
  destruct (to_string_ok_inv delim s s1 out Hrun) as (l & _ & Hstr & _).
  rewrite (to_s3_stored bucket file_name out s1 Hstr).
  destruct (remote_frame (Put bucket file_name out)
              (fun c h => put c h bucket file_name out) s1) as (_ & _ & Hl).
  rewrite <- Hl. by destruct (remote _ _ s1).
Qed.

Lemma to_s3_after_to_string_uploads_its_text_witness :
  final_log
    (to_s3 "bucket" "key"
       (State (with_results_str (self (holding [["1"; "2"]]))
                 (Some (format "," [["1"; "2"]])))
          [[["1"; "2"]]] [])) =
  [] ++ [Put "bucket" "key" (format "," [["1"; "2"]])].
Proof.
  apply (to_s3_after_to_string_uploads_its_text "," "bucket" "key"
           (holding [["1"; "2"]])).
  reflexivity.
Defined.

(** X16.  When the upload raises, the exception leaves [to_s3], but the
    text formatted for it stays stored in [self.results_str]. *)
Theorem failed_upload_keeps_string
  (bucket file_name : string) (s : state) (l : loc) (rows : table) (e : exn) :
  results (self s) = Some l ->
  heap s !! l = Some rows ->
  results_str (self s) = None ->
  put (client (self s)) (log s) bucket file_name (format tab rows) = inl e ->
  to_s3 bucket file_name s =
  Raise e (State (with_results_str (self s) (Some (format tab rows)))
             (heap s)
             (log s ++ [Put bucket file_name (format tab rows)])).
Proof.
  intros Hres Hrows Hstr Hput.
  rewrite (to_s3_after_to_string bucket file_name s Hstr),
          (to_string_stored tab s l Hres), Hrows.
  unfold remote. simpl. by rewrite Hput.
Qed.

Lemma failed_upload_keeps_string_witness :
  to_s3 "bucket" "key"
    (State (with_results (self (fresh (broken_put []))) (Some 0))
       [[["1"; "2"]]] []) =
  Raise (ClientError "Access denied")
    (State (with_results_str
              (with_results (self (fresh (broken_put []))) (Some 0))
              (Some (format tab [["1"; "2"]])))
       [[["1"; "2"]]]
       ([] ++ [Put "bucket" "key" (format tab [["1"; "2"]])])).
Proof.
  apply (failed_upload_keeps_string "bucket" "key"
           (State (with_results (self (fresh (broken_put []))) (Some 0))
              [[["1"; "2"]]] [])
           0 [["1"; "2"]] (ClientError "Access denied")); reflexivity.
Defined.

(** X17.  On an object with nothing stored, [to_s3] makes one readiness
    check, one paginated fetch and one upload, in this order, and the text
    uploaded is the tab-delimited decoded rows without the first one. *)
Theorem to_s3_fetches_formats_uploads
  (bucket file_name : string) (s : state) (qr : page) (pages : list page) :
  let id := query_id (self s) in
  results (self s) = None ->
  results_str (self s) = None ->
  get_query_results (client (self s)) (log s) id = inr qr ->
  paginate (client (self s)) (log s ++ [Get_query_results id]) id = inr pages ->
  final_log (to_s3 bucket file_name s) =
  log s ++ [Get_query_results id; Paginate id;
            Put bucket file_name (format tab (tail (decode_pages pages)))].
Proof.
  intros id Hres Hstr Hget Hpag.
  rewrite (to_s3_after_to_string bucket file_name s Hstr),
          (to_string_fetch s qr pages Hget Hpag tab Hres).
  match goal with
  | |- context [remote ?c ?a ?s0] =>
      destruct (remote_frame c a s0) as (_ & _ & Hl);
      replace (final_log (remote c a s0)) with (log (final_state (remote c a s0)))
        by (by destruct (remote c a s0))
  end.
  rewrite Hl. simpl. by rewrite <- app_assoc.
Qed.

Lemma to_s3_fetches_formats_uploads_witness :
  final_log (to_s3 "bucket" "key" (fresh (finished two_pages))) =
  [] ++ [Get_query_results "q-1"; Paginate "q-1";
         Put "bucket" "key" (format tab [["1"; "2"]; ["3"; "4"]])].
Proof.
  apply (to_s3_fetches_formats_uploads "bucket" "key"
           (fresh (finished two_pages)) (hd (text_page []) two_pages) two_pages);
    reflexivity.
Defined.

End Upload.

(** ** From submission to text *)

(** X18.  The object [query] returns has nothing stored, so its first
    [to_string] asks the same service again, continuing the history
    [query] left: one more readiness check and one paginated fetch, whose
    decoded rows without the first one are the text. *)
Theorem query_then_to_string
  (self : Athena.t) (q : string) (h0 : list call) (id : string)
  (n : nat) (p qr : page) (pages : list page) (fuel : nat)
  (delim : string) (store : list table) :
  let c := Athena.client self in
  let h := h0 ++ [Start_query_execution q (Athena.database self)
                    (Athena.s3_path self); Sleep 3] in
  let h1 := retried h id n ++ [Get_query_results id] in
  start_query_execution c h0 q (Athena.database self) (Athena.s3_path self)
    = inr id ->
  (forall k, k < n ->
     exists e, get_query_results c (retried h id k) id = inl e) ->
  get_query_results c (retried h id n) id = inr p ->
  n < fuel ->
  get_query_results c h1 id = inr qr ->
  paginate c (h1 ++ [Get_query_results id]) id = inr pages ->
  exists r s2,
    Athena.query fuel self q h0 = Some (Ok r h1) /\
    AthenaResult.to_string delim (AthenaResult.State r store h1) =
      Ok (format delim (tail (decode_pages pages))) s2 /\
    AthenaResult.log s2 = h1 ++ [Get_query_results id; Paginate id].
Proof.
  intros c h h1 Hstart Hfail Hok Hfuel Hget Hpag.
  eexists _, _. split; [|split].
  - rewrite (query_accepted self q h0 fuel id Hstart). fold h.
    by rewrite (poll_success self id n fuel h p Hfuel Hfail Hok).
  - by apply (to_string_fetch
                (AthenaResult.State
                   (AthenaResult.__init__ c (Athena.database self) id
                      (Athena.s3_path self)) store h1) qr pages Hget Hpag delim).
  - reflexivity.
Qed.

Lemma query_then_to_string_witness :
  exists r s2,
    Athena.query 5
      (Athena.__init__ (ready_after 1 two_pages) "default" "s3://cmathenalogs/")
      "SELECT 1" [] =
      Some (Ok r [Start_query_execution "SELECT 1" "default" "s3://cmathenalogs/";
                  Sleep 3;
                  Get_query_results "q-1"; Sleep 10;
                  Get_query_results "q-1"]) /\
    AthenaResult.to_string tab
      (AthenaResult.State r []
         [Start_query_execution "SELECT 1" "default" "s3://cmathenalogs/";
          Sleep 3;
          Get_query_results "q-1"; Sleep 10;
          Get_query_results "q-1"]) =
      Ok (format tab [["1"; "2"]; ["3"; "4"]]) s2 /\
    AthenaResult.log s2 =
      [Start_query_execution "SELECT 1" "default" "s3://cmathenalogs/";
       Sleep 3;
       Get_query_results "q-1"; Sleep 10;
       Get_query_results "q-1"] ++
      [Get_query_results "q-1"; Paginate "q-1"].
Proof.
  apply (query_then_to_string
           (Athena.__init__ (ready_after 1 two_pages) "default"
              "s3://cmathenalogs/")
           "SELECT 1" [] "q-1" 1 (hd (text_page []) two_pages)
           (hd (text_page []) two_pages) two_pages 5 tab []).
  - reflexivity.
  - intros [|k] Hk.
    + eexists; reflexivity.
    + exfalso. apply Nat.succ_lt_mono in Hk. exact (Nat.nlt_0_r _ Hk).
  - reflexivity.
  - repeat constructor.
  - reflexivity.
  - reflexivity.
Defined.

(** ** [AthenaResult._format_results] *)

Section FormatResults.

Import AthenaResult.

Lemma present_values_cons (j : cell) (d : list cell) :
  present_values (j :: d) =
  match j !! "VarCharValue" with
  | Some val => val :: present_values d
  | None => present_values d
  end.
Proof. reflexivity. Qed.

Lemma format_row (d : list cell) (acc : list string) :
  fold_left (fun datum (j : cell) =>
               match j !! "VarCharValue" with
               | Some val => datum ++ [val]
               | None => datum
               end) d acc
  = acc ++ present_values d.
Proof.
  revert acc. induction d as [|j d IH]; intros acc.
  - simpl. by rewrite app_nil_r.
  - cbn [fold_left]. rewrite IH, present_values_cons.
    destruct (j !! "VarCharValue"); [by rewrite <- app_assoc|done].
Qed.

Lemma format_results_matrix (p : page) (header : bool) :
  _format_results p header =
  let matrix := map (fun r => present_values (Data r)) (Rows (ResultSet p)) in
  if header then inr matrix
  else match matrix with
       | [] => inl IndexError
       | _ :: matrix' => inr matrix'
       end.
Proof.
  unfold _format_results. rewrite append_each_map. simpl.
  replace (map _ (Rows (ResultSet p)))
    with (map (fun r => present_values (Data r)) (Rows (ResultSet p)))
    by (apply map_ext; intros r; by rewrite format_row).
  by destruct header.
Qed.

Lemma present_values_complete (d : list cell) :
  Forall (fun j => has_value j = true) d ->
  present_values d = decode_row d.
Proof.
  rewrite decode_row_map.
  induction 1 as [|j d Hj _ IH]; [reflexivity|].
  rewrite present_values_cons, IH. cbn [map].
  unfold has_value, decode_cell in *.
  by destruct (j !! "VarCharValue").
Qed.

Lemma present_values_length (d : list cell) :
  length (present_values d)
  + length (List.filter (fun j => negb (has_value j)) d)
  = length d.
Proof.
  induction d as [|j d IH]; [reflexivity|].
  rewrite present_values_cons. cbn [List.filter]. unfold has_value at 1.
  destruct (j !! "VarCharValue"); simpl; lia.
Qed.

(** X19.  On a page in which every cell carries a value, [_format_results]
    and the decoding of [result] agree: with [header=True] it returns all
    decoded rows, and with [header=False], given at least one row, the rows
    [result] returns for that page. *)
Theorem format_results_agrees_when_complete (p : page) :
  Forall (fun r => Forall (fun j => has_value j = true) (Data r))
         (Rows (ResultSet p)) ->
  _format_results p true = inr (decode_pages [p]) /\
  (Rows (ResultSet p) <> [] ->
   _format_results p false = inr (tail (decode_pages [p]))).
Proof.
  intros Hall.
  assert (Hm : map (fun r => present_values (Data r)) (Rows (ResultSet p))
               = decode_pages [p]).
  { rewrite decode_pages_all_rows. unfold all_rows. simpl. rewrite app_nil_r.
    apply map_ext_Forall. eapply Forall_impl; [exact Hall|].
    intros r Hr. by apply present_values_complete. }
  rewrite !format_results_matrix. simpl. rewrite Hm. split; [done|].
  intros Hne. destruct (decode_pages [p]) as [|d ds] eqn:Hd; [|done].
  rewrite decode_pages_all_rows in Hd. unfold all_rows in Hd. simpl in Hd.
  rewrite app_nil_r in Hd. by destruct (Rows (ResultSet p)).
Qed.

Lemma format_results_agrees_when_complete_witness :
  _format_results (text_page [["a"; "b"]; ["1"; "2"]]) true
    = inr (decode_pages [text_page [["a"; "b"]; ["1"; "2"]]]) /\
  (Rows (ResultSet (text_page [["a"; "b"]; ["1"; "2"]])) <> [] ->
   _format_results (text_page [["a"; "b"]; ["1"; "2"]]) false
     = inr (tail (decode_pages [text_page [["a"; "b"]; ["1"; "2"]]]))).
Proof.
  apply (format_results_agrees_when_complete
           (text_page [["a"; "b"]; ["1"; "2"]])).
  repeat constructor.
Defined.

(** X20.  [_format_results] leaves out the cells without a value instead
    of writing an empty string: with [header=True] it returns one row per
    service row, holding the values present in order, so a row is shorter
    than the service's row by the number of its missing values. *)
Theorem format_results_drops_missing (p : page) :
  exists matrix,
    _format_results p true = inr matrix /\
    Forall2 (fun r d =>
               d = present_values (Data r) /\
               length d + length (List.filter (fun j => negb (has_value j)) (Data r))
               = length (Data r))
            (Rows (ResultSet p)) matrix.
Proof.
  eexists. split; [by rewrite format_results_matrix|].
  apply Forall2_fmap_r, Forall_Forall2_diag, Forall_forall.
  intros r _. split; [reflexivity|apply present_values_length].
Qed.

(** X21.  With [header=False], [_format_results] raises [IndexError]
    exactly when the page has no row; otherwise it returns what it returns
    with [header=True] minus the first row. *)
Theorem format_results_header_false (p : page) :
  (_format_results p false = inl IndexError <-> Rows (ResultSet p) = []) /\
  (forall matrix,
      _format_results p true = inr matrix ->
      matrix <> [] ->
      _format_results p false = inr (tail matrix)).
Proof.
  rewrite !format_results_matrix. simpl. split.
  - destruct (Rows (ResultSet p)); simpl; split; intros H; done.
  - intros matrix Hm Hne. injection Hm as <-.
    by destruct (map _ (Rows (ResultSet p))).
Qed.

End FormatResults.

(** ** [AthenaResult.to_string] with another delimiter *)

Section Reformat.

Import AthenaResult.

(** X22.  [to_string] never reuses the string it stored: called again with
    another delimiter after a call that returned, it formats the same
    stored rows with the new delimiter, makes no remote call, and replaces
    the stored string by the new text. *)
Theorem to_string_reformats
  (d1 d2 : string) (s s1 : state) (out1 : string) :
  to_string d1 s = Ok out1 s1 ->
  exists (rows : table) s2,
    out1 = format d1 rows /\
    to_string d2 s1 = Ok (format d2 rows) s2 /\
    results_str (self s2) = Some (format d2 rows) /\
    results (self s2) = results (self s1) /\
    heap s2 = heap s1 /\
    log s2 = log s1.
Proof.
  intros Hrun.
  destruct (to_string_ok_inv d1 s s1 out1 Hrun) as (l & Hres & _ & Hout).
  exists (default [] (heap s1 !! l)). eexists.
  split; [exact Hout|].
  split; [exact (to_string_stored d2 s1 l Hres)|].
  by simpl.
Qed.

Lemma to_string_reformats_witness :
  exists (rows : table) s2,
    format tab [["1"; "2"]] = format tab rows /\
    to_string ","
      (State (with_results_str (self (holding [["1"; "2"]]))
                (Some (format tab [["1"; "2"]])))
         [[["1"; "2"]]] []) = Ok (format "," rows) s2 /\
    results_str (self s2) = Some (format "," rows) /\
    results (self s2) = Some 0 /\
    heap s2 = [[["1"; "2"]]] /\
    log s2 = [].
Proof.
  apply (to_string_reformats tab "," (holding [["1"; "2"]])).
  reflexivity.
Defined.

End Reformat.
